(** * Personal volatility and utility analysis: a shallow embedding

    The script [volatility_analysis.py] is a straight line of stages over one
    pandas table: build the calendar of 2025, draw a category per day, draw a
    utility score per day from a category-specific distribution, overwrite a
    fixed list of remembered days, and export the table as CSV.

    The embedding keeps the table column-major, as pandas does, threads the
    global numpy random state explicitly, and gives Python exceptions their
    own result type. *)

From Stdlib Require Import ZArith QArith List String Ascii Bool Lia Sorted.
From Stdlib Require Import DecimalString DecimalZ.
From Stdlib Require OrderedTypeEx.
Import ListNotations.

Local Open Scope string_scope.
Local Open Scope Z_scope.

(* ===================================================================== *)
(** ** Python results: a value or a raised exception *)
(* ===================================================================== *)

Module Py.

Inductive exn : Type :=
| KeyError (key : string)
| ValueError (msg : string)
| IndexError.

Inductive result (A : Type) : Type :=
| Ok (a : A)
| Raise (e : exn).

Arguments Ok {A} a.
Arguments Raise {A} e.

Definition bind {A B} (r : result A) (k : A -> result B) : result B :=
  match r with
  | Ok a => k a
  | Raise e => Raise e
  end.

Definition raises {A} (r : result A) : Prop := exists e, r = Raise e.

End Py.
Import Py.

Notation "x <-? c ; k" := (Py.bind c (fun x => k))
  (at level 61, c at next level, right associativity).

(* ===================================================================== *)
(** ** Calendar arithmetic

    A pandas [Timestamp] is a count of nanoseconds since 1970-01-01; every
    timestamp of this script sits at midnight, so the embedding counts whole
    days.  The two conversions are the usual proleptic-Gregorian ones. *)
(* ===================================================================== *)

Module Calendar.

Definition Timestamp : Type := Z.

Record civil : Type := Civil { year : Z; month : Z; day : Z }.

Definition civil_eqb (a b : civil) : bool :=
  (year a =? year b) && (month a =? month b) && (day a =? day b).

Definition is_leap (y : Z) : bool :=
  ((y mod 4 =? 0) && negb (y mod 100 =? 0)) || (y mod 400 =? 0).

Definition days_in_month (y m : Z) : Z :=
  if m =? 2 then (if is_leap y then 29 else 28)
  else if (m =? 4) || (m =? 6) || (m =? 9) || (m =? 11) then 30
  else 31.

Definition valid_civil (c : civil) : bool :=
  (1 <=? month c) && (month c <=? 12) &&
  (1 <=? day c) && (day c <=? days_in_month (year c) (month c)).

Definition days_from_civil (c : civil) : Timestamp :=
  let y := if month c <=? 2 then year c - 1 else year c in
  let era := y / 400 in
  let yoe := y - era * 400 in
  let mp := if 2 <? month c then month c - 3 else month c + 9 in
  let doy := (153 * mp + 2) / 5 + day c - 1 in
  let doe := yoe * 365 + yoe / 4 - yoe / 100 + doy in
  era * 146097 + doe - 719468.

Definition civil_from_days (t : Timestamp) : civil :=
  let z := t + 719468 in
  let era := z / 146097 in
  let doe := z - era * 146097 in
  let yoe := (doe - doe / 1460 + doe / 36524 - doe / 146096) / 365 in
  let doy := doe - (365 * yoe + yoe / 4 - yoe / 100) in
  let mp := (5 * doy + 2) / 153 in
  let d := doy - (153 * mp + 2) / 5 + 1 in
  let m := if mp <? 10 then mp + 3 else mp - 9 in
  Civil (if m <=? 2 then yoe + era * 400 + 1 else yoe + era * 400) m d.

(** *** Text form [YYYY-MM-DD] *)

Definition digit_of_ascii (a : ascii) : option Z :=
  let n := Z.of_nat (nat_of_ascii a) in
  if (48 <=? n) && (n <=? 57) then Some (n - 48) else None.

Definition ascii_of_digit (d : Z) : ascii :=
  ascii_of_nat (Z.to_nat (48 + d mod 10)).

Fixpoint number_of_digits (acc : Z) (s : string) : option Z :=
  match s with
  | EmptyString => Some acc
  | String a s' =>
      match digit_of_ascii a with
      | Some d => number_of_digits (10 * acc + d) s'
      | None => None
      end
  end.

(** [pad w n]: the last [w] decimal digits of [n], most significant
    first. *)
Fixpoint pad (w : nat) (n : Z) : string :=
  match w with
  | O => EmptyString
  | S w' => pad w' (n / 10) ++ String (ascii_of_digit n) EmptyString
  end.

Definition isoformat (t : Timestamp) : string :=
  let c := civil_from_days t in
  pad 4 (year c) ++ "-" ++ pad 2 (month c) ++ "-" ++ pad 2 (day c).

(** The text-to-timestamp conversion pandas applies when a datetime
    column is compared with a string.  Only the ISO calendar form is
    modelled, which is the form of every date literal in the script. *)
Definition parse_iso (s : string) : option Timestamp :=
  if (String.length s =? 10)%nat
     && String.eqb (substring 4 1 s) "-"
     && String.eqb (substring 7 1 s) "-"
  then
    match number_of_digits 0 (substring 0 4 s),
          number_of_digits 0 (substring 5 2 s),
          number_of_digits 0 (substring 8 2 s) with
    | Some y, Some m, Some d =>
        let c := Civil y m d in
        if valid_civil c then Some (days_from_civil c) else None
    | _, _, _ => None
    end
  else None.

Definition days_between (start stop : Timestamp) : list Timestamp :=
  map (fun i => start + Z.of_nat i) (seq 0 (Z.to_nat (stop - start + 1))).

(** [pd.date_range(start=start, end=stop, freq='D')]: every day from
    [start] to [stop], both included; the bounds are given as text. *)
Definition date_range (start stop : string) : result (list Timestamp) :=
  match parse_iso start, parse_iso stop with
  | Some a, Some b => Ok (days_between a b)
  | _, _ => Raise (ValueError "could not convert string to Timestamp")
  end.

End Calendar.
Import Calendar.

(* ===================================================================== *)
(** ** The numpy global random state

    [np.random.seed(42)] fixes the state of a Mersenne Twister.  Its bit
    stream is not reproduced here: a state is an arbitrary stream of raw
    53-bit draws together with a cursor, and every result below holds for
    all streams, hence for the seeded one. *)
(* ===================================================================== *)

Module Numpy.

Record RandomState : Type := mkRandomState {
  stream : nat -> N;
  cursor : nat
}.

(** Computations that read the global random state and may raise. *)
Definition M (A : Type) : Type := RandomState -> result A * RandomState.

Definition ret {A} (a : A) : M A := fun rs => (Ok a, rs).

Definition throw {A} (e : exn) : M A := fun rs => (Raise e, rs).

Definition bindM {A B} (c : M A) (k : A -> M B) : M B :=
  fun rs =>
    match c rs with
    | (Ok a, rs') => k a rs'
    | (Raise e, rs') => (Raise e, rs')
    end.

Definition lift {A} (r : result A) : M A := fun rs => (r, rs).

Definition next_raw : M N :=
  fun rs => (Ok (stream rs (cursor rs)),
             mkRandomState (stream rs) (S (cursor rs))).

Definition two53 : N := 9007199254740992%N.

(** [random_sample()]: a float in the half-open interval [0, 1), here the
    rational [k / 2^53]. *)
Definition random_sample : M Q :=
  bindM next_raw (fun r =>
    ret (Z.of_N (r mod two53) # 9007199254740992)).

(** [np.random.randint(low, high)]: an integer in [low, high).  numpy
    reduces raw words into the interval by masked rejection; the
    embedding reduces one raw draw modulo the width, which has the same
    support. *)
Definition randint (low high : Z) : M Z :=
  if high <=? low then throw (ValueError "low >= high")
  else bindM next_raw (fun r => ret (low + Z.of_N r mod (high - low))).

Fixpoint cumsum (acc : Q) (p : list Q) : list Q :=
  match p with
  | [] => []
  | x :: p' => (acc + x)%Q :: cumsum (acc + x)%Q p'
  end.

(** [cdf.searchsorted(u, side='right')] on an ascending [cdf]: the first
    index whose entry exceeds [u]. *)
Fixpoint searchsorted_right (cdf : list Q) (u : Q) : nat :=
  match cdf with
  | [] => O
  | c :: cdf' => if Qle_bool c u then S (searchsorted_right cdf' u) else O
  end.

Definition Qsum (p : list Q) : Q := fold_right Qplus 0%Q p.

Definition choice_index (p : list Q) (u : Q) : nat :=
  let cdf := cumsum 0%Q p in
  let total := last cdf 1%Q in
  searchsorted_right (map (fun c => (c / total)%Q) cdf) u.

Definition check_choice {A} (a : list A) (p : list Q) : result unit :=
  if (List.length a =? 0)%nat
  then Raise (ValueError "'a' cannot be empty unless no samples are taken")
  else if negb (List.length a =? List.length p)%nat
  then Raise (ValueError "'a' and 'p' must have same size")
  else if existsb (fun x => negb (Qle_bool 0%Q x)) p
  then Raise (ValueError "probabilities are not non-negative")
  else if negb (Qeq_bool (Qsum p) 1%Q)
  then Raise (ValueError "probabilities do not sum to 1")
  else Ok tt.

Definition pick {A} (a : list A) (p : list Q) : M A :=
  bindM random_sample (fun u =>
    match nth_error a (choice_index p u) with
    | Some x => ret x
    | None => throw IndexError
    end).

(** [np.random.choice(a, p=p)]. *)
Definition choice {A} (a : list A) (p : list Q) : M A :=
  bindM (lift (check_choice a p)) (fun _ => pick a p).

Fixpoint replicateM {A} (n : nat) (c : M A) : M (list A) :=
  match n with
  | O => ret []
  | S n' => bindM c (fun x => bindM (replicateM n' c) (fun xs => ret (x :: xs)))
  end.

(** [np.random.choice(a, size=n, p=p)]: [n] independent picks, drawn in
    order from the same stream. *)
Definition choice_n {A} (a : list A) (size : nat) (p : list Q) : M (list A) :=
  bindM (lift (check_choice a p)) (fun _ => replicateM size (pick a p)).

End Numpy.
Import Numpy.

Notation "x <- c ;; k" := (Numpy.bindM c (fun x => k))
  (at level 61, c at next level, right associativity).

(* ===================================================================== *)
(** ** The pandas table

    A [DataFrame] is an ordered list of named columns; a row is what
    [df.apply(f, axis=1)] hands to [f]: the cells of one index position,
    keyed by column name. *)
(* ===================================================================== *)

Module Pandas.

Inductive value : Type :=
| VTimestamp (t : Timestamp)
| VStr (s : string)
| VInt (z : Z)
| VNone.

Definition Series : Type := list value.
Definition DataFrame : Type := list (string * Series).
Definition Row : Type := list (string * value).

Fixpoint lookup {A} (name : string) (l : list (string * A)) : option A :=
  match l with
  | [] => None
  | (k, v) :: l' => if String.eqb k name then Some v else lookup name l'
  end.

(** [obj[name]] on a table or on a row. *)
Definition getitem {A} (l : list (string * A)) (name : string) : result A :=
  match lookup name l with
  | Some v => Ok v
  | None => Raise (KeyError name)
  end.

Definition columns (df : DataFrame) : list string := map fst df.

(** [len(df)]. *)
Definition len (df : DataFrame) : nat :=
  match df with
  | [] => O
  | (_, s) :: _ => List.length s
  end.

Fixpoint replace_column (name : string) (s : Series) (df : DataFrame)
  : DataFrame :=
  match df with
  | [] => [(name, s)]
  | (k, c) :: df' =>
      if String.eqb k name then (k, s) :: df'
      else (k, c) :: replace_column name s df'
  end.

(** [df[name] = s]: replaces the column in place when it exists, appends
    it otherwise; the lengths must agree. *)
Definition setitem (df : DataFrame) (name : string) (s : Series)
  : result DataFrame :=
  match df with
  | [] => Ok [(name, s)]
  | _ :: _ =>
      if (List.length s =? len df)%nat then Ok (replace_column name s df)
      else Raise (ValueError "Length of values does not match length of index")
  end.

(** [pd.DataFrame(data, columns=[name])] for one-dimensional [data]. *)
Definition DataFrame_of (data : Series) (name : string) : DataFrame :=
  [(name, data)].

Definition row_at (df : DataFrame) (i : nat) : Row :=
  map (fun kc => (fst kc, nth i (snd kc) VNone)) df.

Fixpoint mapM {A B} (f : A -> M B) (l : list A) : M (list B) :=
  match l with
  | [] => ret []
  | x :: l' => y <- f x ;; ys <- mapM f l' ;; ret (y :: ys)
  end.

(** [df.apply(f, axis=1)]: [f] on every row, first to last. *)
Definition apply_rows (f : Row -> M value) (df : DataFrame) : M Series :=
  mapM (fun i => f (row_at df i)) (seq 0 (len df)).

(** [series == text].  A timestamp cell equals a string when the string
    converts to that timestamp; a string that does not convert equals no
    timestamp, and the comparison itself never raises. *)
Definition eq_text (to_datetime : string -> option Timestamp)
           (text : string) (v : value) : bool :=
  match v with
  | VTimestamp t =>
      match to_datetime text with
      | Some t' => t =? t'
      | None => false
      end
  | VStr s => String.eqb s text
  | VInt _ | VNone => false
  end.

Fixpoint where_set (mask : list bool) (v : value) (s : Series) : Series :=
  match mask, s with
  | m :: mask', x :: s' => (if m then v else x) :: where_set mask' v s'
  | _, _ => s
  end.

(** [df.loc[mask, name] = v].  A missing column is created, holding [v]
    under the mask and nothing elsewhere. *)
Fixpoint loc_set (mask : list bool) (name : string) (v : value)
         (df : DataFrame) : DataFrame :=
  match df with
  | [] => [(name, map (fun m : bool => if m then v else VNone) mask)]
  | (k, c) :: df' =>
      if String.eqb k name then (k, where_set mask v c) :: df'
      else (k, c) :: loc_set mask name v df'
  end.

(** *** [to_csv] *)

Definition dquote : string := String (ascii_of_nat 34) EmptyString.
Definition newline : string := String (ascii_of_nat 10) EmptyString.

Fixpoint contains_char (a : ascii) (s : string) : bool :=
  match s with
  | EmptyString => false
  | String b s' => Ascii.eqb a b || contains_char a s'
  end.

Fixpoint double_quotes (s : string) : string :=
  match s with
  | EmptyString => EmptyString
  | String b s' =>
      if Ascii.eqb b (ascii_of_nat 34)
      then String b (String b (double_quotes s'))
      else String b (double_quotes s')
  end.

(** Minimal quoting: a field is quoted only when it holds the delimiter,
    a quote or a line break. *)
Definition csv_field (s : string) : string :=
  if contains_char "," s || contains_char (ascii_of_nat 34) s
     || contains_char (ascii_of_nat 10) s || contains_char (ascii_of_nat 13) s
  then dquote ++ double_quotes s ++ dquote
  else s.

Definition string_of_Z (z : Z) : string := NilZero.string_of_int (Z.to_int z).

Definition csv_cell (v : value) : string :=
  match v with
  | VTimestamp t => isoformat t
  | VStr s => csv_field s
  | VInt z => string_of_Z z
  | VNone => EmptyString
  end.

Fixpoint join (sep : string) (l : list string) : string :=
  match l with
  | [] => EmptyString
  | [x] => x
  | x :: l' => x ++ sep ++ join sep l'
  end.

Definition csv_line (cells : list string) : string :=
  join "," cells ++ newline.

(** [df.to_csv(path, index=False)]: the header, then one line per index
    position, without the index itself. *)
Definition to_csv_text (df : DataFrame) : string :=
  csv_line (map csv_field (columns df)) ++
  String.concat EmptyString
    (map (fun i => csv_line (map (fun kv => csv_cell (snd kv)) (row_at df i)))
         (seq 0 (len df))).

Definition FileSystem : Type := string -> option string.

Definition write_file (path content : string) (fs : FileSystem) : FileSystem :=
  fun p => if String.eqb p path then Some content else fs p.

Definition to_csv (df : DataFrame) (path : string) (fs : FileSystem)
  : FileSystem :=
  write_file path (to_csv_text df) fs.

End Pandas.
Import Pandas.

(* ===================================================================== *)
(** ** The script *)
(* ===================================================================== *)

(** *** 1. Setup: the date range of the year *)

Definition dates : result (list Timestamp) :=
  date_range "2025-01-01" "2025-12-31".

Definition calendar : result DataFrame :=
  d <-? dates;
  Ok (DataFrame_of (map VTimestamp d) "Date").

(** *** 2. Simulation: a category per day *)

Definition categories : list string := ["Stable"; "Peak"; "Low_Perf"; "Crisis"].

Definition probabilities : list Q := [5 # 10; 2 # 10; 2 # 10; 1 # 10]%Q.

Definition assign_categories (df : DataFrame) : M DataFrame :=
  drawn <- choice_n categories (len df) probabilities ;;
  lift (setitem df "Category" (map VStr drawn)).

(** *** 3. Utility scoring *)

(** [category == label] for a cell and a string literal. *)
Definition is_label (category : value) (label : string) : bool :=
  match category with
  | VStr s => String.eqb s label
  | _ => false
  end.

Definition calculate_utility (row : Row) : M value :=
  category <- lift (getitem row "Category") ;;
  if is_label category "Stable" then
    z <- randint 1 4 ;; ret (VInt z)
  else if is_label category "Peak" then
    z <- randint 3 6 ;; ret (VInt z)
  else if is_label category "Low_Perf" then
    z <- randint 0 3 ;; ret (VInt z)
  else if is_label category "Crisis" then
    z <- choice [0; 1; 4; 5] [3 # 10; 2 # 10; 2 # 10; 3 # 10]%Q ;; ret (VInt z)
  else
    (* the function falls off its end *)
    ret VNone.

Definition assign_scores (df : DataFrame) : M DataFrame :=
  scores <- apply_rows calculate_utility df ;;
  lift (setitem df "Utility_Score" scores).

Definition simulate : M DataFrame :=
  df <- lift calendar ;;
  df <- assign_categories df ;;
  assign_scores df.

(** *** 4. Data override *)

Definition event : Type := (string * string * Z)%type.

Definition actual_events : list event :=
  [ ("2025-01-01", "Peak", 3);
    ("2025-01-09", "Crisis", 1);
    ("2025-01-10", "Peak", 3);
    ("2025-01-11", "Low_Perf", 1);
    ("2025-01-13", "Low_Perf", 1);
    ("2025-01-14", "Low_Perf", 1);
    ("2025-01-16", "Low_Perf", 1);
    ("2025-01-18", "Crisis", 1);
    ("2025-01-19", "Crisis", 1);
    ("2025-01-20", "Crisis", 1);
    ("2025-01-21", "Crisis", 1);
    ("2025-01-22", "Low_Perf", 1);
    ("2025-01-27", "Peak", 3);
    ("2025-01-28", "Peak", 5);
    ("2025-01-30", "Crisis", 1);
    ("2025-02-26", "Crisis", 1);
    ("2025-03-01", "Peak", 5);
    ("2025-03-08", "Peak", 5);
    ("2025-03-11", "Peak", 1);
    ("2025-03-12", "Crisis", 5);
    ("2025-03-19", "Crisis", 1);
    ("2025-03-22", "Crisis", 5);
    ("2025-05-31", "Peak", 5);
    ("2025-06-01", "Peak", 5);
    ("2025-06-01", "Peak", 5);
    ("2025-06-25", "Crisis", 5);
    ("2025-07-01", "Crisis", 4);
    ("2025-07-02", "Peak", 3);
    ("2025-07-04", "Crisis", 5);
    ("2025-07-16", "Low_Perf", 2);
    ("2025-07-17", "Low_Perf", 2);
    ("2025-07-18", "Peak", 3);
    ("2025-07-19", "Crisis", 1);
    ("2025-07-20", "Low_Perf", 4);
    ("2025-07-21", "Crisis", 5);
    ("2025-08-14", "Peak", 3);
    ("2025-08-15", "Peak", 3);
    ("2025-08-28", "Crisis", 5);
    ("2025-09-20", "Peak", 3);
    ("2025-09-21", "Peak", 3);
    ("2025-10-06", "Peak", 5);
    ("2025-10-14", "Peak", 5);
    ("2025-10-17", "Crisis", 1);
    ("2025-10-24", "Peak", 5);
    ("2025-11-19", "Crisis", 1);
    ("2025-11-20", "Crisis", 5);
    ("2025-11-24", "Low_Perf", 1);
    ("2025-11-25", "Low_Perf", 1);
    ("2025-11-26", "Low_Perf", 2);
    ("2025-11-27", "Peak", 5);
    ("2025-12-01", "Peak", 4) ].

Section Override.

(** The conversion pandas applies to the date text of an entry.  The
    loop is stated for any conversion; the script runs it with
    [parse_iso]. *)
Variable to_datetime : string -> option Timestamp.

(** One turn of the loop: the mask is computed once, then both cells are
    assigned under it. *)
Definition apply_event (ev : event) (df : DataFrame) : result DataFrame :=
  let '(date, cat, score) := ev in
  col <-? getitem df "Date";
  let mask := map (eq_text to_datetime date) col in
  let df := loc_set mask "Category" (VStr cat) df in
  Ok (loc_set mask "Utility_Score" (VInt score) df).

Fixpoint apply_overrides (evs : list event) (df : DataFrame)
  : result DataFrame :=
  match evs with
  | [] => Ok df
  | ev :: evs' => df' <-? apply_event ev df; apply_overrides evs' df'
  end.

End Override.

(** *** 6. Export *)

Definition export_path : string := "utility_analysis_2025.csv".

(** The whole run.  The summary and the box plot between the override and
    the export only read the table, so they do not appear. *)
Definition script (fs : FileSystem) : M (DataFrame * FileSystem) :=
  df <- simulate ;;
  df <- lift (apply_overrides parse_iso actual_events df) ;;
  ret (df, to_csv df export_path fs).


(** *** 5. Analysis: the summary table

    [df.groupby('Category')['Utility_Score'].describe()], of which the
    script prints the cells [count], [mean] and [std].  The groups and the
    first two cells are exact; [std] is the square root of a float and has
    no counterpart here.  Group keys are the string cells of the column, as
    the script has them; a cell holding nothing forms no group. *)

Fixpoint insert_key (k : string) (ks : list string) : list string :=
  match ks with
  | [] => [k]
  | x :: ks' =>
      match String.compare k x with
      | Lt => k :: ks
      | Eq => ks
      | Gt => x :: insert_key k ks'
      end
  end.

(** The distinct keys of a column, in ascending order. *)
Definition group_keys (by_col : Series) : list string :=
  fold_right (fun v ks => match v with
                          | VStr s => insert_key s ks
                          | _ => ks
                          end) [] by_col.

(** The cells of [vals] on the rows whose key is [k], in row order. *)
Definition group_of (by_col vals : Series) (k : string) : Series :=
  map snd (filter (fun p => is_label (fst p) k) (combine by_col vals)).

(** [df.groupby(by_col)[col]]. *)
Definition groupby (df : DataFrame) (by_col col : string)
  : result (list (string * Series)) :=
  b <-? getitem df by_col;
  v <-? getitem df col;
  Ok (map (fun k => (k, group_of b v k)) (group_keys b)).

Record describe_row : Type := DescribeRow {
  count : nat;
  mean : option Q
}.

Definition numbers (s : Series) : list Z :=
  flat_map (fun v => match v with VInt z => [z] | _ => [] end) s.

Definition Zsum (xs : list Z) : Z := fold_right Z.add 0 xs.

(** The [count] and [mean] cells of [describe()]: the number of cells
    that hold a number and their arithmetic mean, which is undefined for no
    cell. *)
Definition describe (s : Series) : describe_row :=
  let xs := numbers s in
  DescribeRow (List.length xs)
              match List.length xs with
              | O => None
              | S n => Some (Zsum xs # Pos.of_succ_nat n)
              end.

Definition summary (df : DataFrame) : result (list (string * describe_row)) :=
  g <-? groupby df "Category" "Utility_Score";
  Ok (map (fun kg => (fst kg, describe (snd kg))) g).

(* ===================================================================== *)
(** ** Vocabulary of the specification *)
(* ===================================================================== *)

(** A concrete random state for examples: a linear congruential stream. *)
Definition sample_state : RandomState :=
  mkRandomState
    (fun n => ((6364136223846793005 * N.of_nat (S n) + 1442695040888963407)
               mod 18446744073709551616 / 2048)%N)
    0.

(** A computation [c] returns, from every random state, a value
    satisfying [P]: it neither raises nor gets stuck. *)
Definition returns {A} (c : M A) (P : A -> Prop) : Prop :=
  forall rs, exists a rs', c rs = (Ok a, rs') /\ P a.

(** The state after one raw draw. *)
Definition advance (rs : RandomState) : RandomState :=
  mkRandomState (stream rs) (S (cursor rs)).

(** The table once the three columns exist. *)
Definition table (D C U : Series) : DataFrame :=
  [("Date", D); ("Category", C); ("Utility_Score", U)].

(** The records of a table, in index order. *)
Definition records (df : DataFrame) : list Row :=
  map (row_at df) (seq 0 (len df)).

Definition record (d c u : value) : Row :=
  [("Date", d); ("Category", c); ("Utility_Score", u)].

(** The scores the specification allows for a category label. *)
Definition score_set (label : string) : list Z :=
  if String.eqb label "Stable" then [1; 2; 3]
  else if String.eqb label "Peak" then [3; 4; 5]
  else if String.eqb label "Low_Perf" then [0; 1; 2]
  else if String.eqb label "Crisis" then [0; 1; 4; 5]
  else [].

(** A record whose category is one of the four labels and whose score
    lies between 0 and 5. *)
Definition record_in_range (r : Row) : Prop :=
  exists label z,
    lookup "Category" r = Some (VStr label) /\ In label categories /\
    lookup "Utility_Score" r = Some (VInt z) /\ 0 <= z <= 5.

(** A record as the simulation leaves it: the score is one the sampler
    can draw for the record's category. *)
Definition record_simulated (r : Row) : Prop :=
  exists label z,
    lookup "Category" r = Some (VStr label) /\ In label categories /\
    lookup "Utility_Score" r = Some (VInt z) /\ In z (score_set label).

Definition event_date (ev : event) : string := fst (fst ev).
Definition event_category (ev : event) : string := snd (fst ev).
Definition event_score (ev : event) : Z := snd ev.

(** The entry [ev] is addressed to the record [r]. *)
Definition addressed (to_datetime : string -> option Timestamp)
           (ev : event) (r : Row) : bool :=
  match lookup "Date" r with
  | Some d => eq_text to_datetime (event_date ev) d
  | None => false
  end.

(** The last entry of the list addressed to [r]. *)
Definition last_addressed (to_datetime : string -> option Timestamp)
           (evs : list event) (r : Row) : option event :=
  find (fun ev => addressed to_datetime ev r) (rev evs).

(** The script's run up to the override: [df1] is the simulated table and
    [df2] the table after the override loop. *)
Definition runs_to (rs : RandomState) (df1 df2 : DataFrame) : Prop :=
  exists rs',
    simulate rs = (Ok df1, rs') /\
    apply_overrides parse_iso actual_events df1 = Ok df2.

(** The calendar days of a year. *)
Definition day_of_year (y : Z) (c : civil) : Prop :=
  year c = y /\ valid_civil c = true.

(** *** A reader for the exported file

    The script never reads its file back; this reader is the plain
    inverse of the format and serves to state the round trip. *)

Fixpoint split_on (sep : ascii) (s : string) : list string :=
  match s with
  | EmptyString => [EmptyString]
  | String a s' =>
      if Ascii.eqb a sep then EmptyString :: split_on sep s'
      else match split_on sep s' with
           | x :: xs => String a x :: xs
           | [] => [String a EmptyString]
           end
  end.

Definition int_of_text (s : string) : option Z :=
  option_map Z.of_int (NilZero.int_of_string s).

Definition read_record (line : string) : option (Timestamp * string * Z) :=
  match split_on "," line with
  | [d; c; u] =>
      match parse_iso d, int_of_text u with
      | Some t, Some z => Some (t, c, z)
      | _, _ => None
      end
  | _ => None
  end.

Fixpoint read_records (lines : list string)
  : option (list (Timestamp * string * Z)) :=
  match lines with
  | [] => Some []
  | l :: lines' =>
      match read_record l, read_records lines' with
      | Some r, Some rs => Some (r :: rs)
      | _, _ => None
      end
  end.

(** The file is a header line and one line per record, each closed by a
    line break. *)
Definition read_csv (text : string)
  : option (list string * list (Timestamp * string * Z)) :=
  match split_on (ascii_of_nat 10) text with
  | header :: rest =>
      match rev rest with
      | EmptyString :: body =>
          option_map (fun rs => (split_on "," header, rs))
                     (read_records (rev body))
      | _ => None
      end
  | [] => None
  end.

(** The triple a record stands for. *)
Definition triple_of (r : Row) : option (Timestamp * string * Z) :=
  match lookup "Date" r, lookup "Category" r, lookup "Utility_Score" r with
  | Some (VTimestamp t), Some (VStr c), Some (VInt z) => Some (t, c, z)
  | _, _, _ => None
  end.

(** The line of the file a triple is written as: the ISO date, the
    category as it is, the score in decimal. *)
Definition text_of_triple (x : Timestamp * string * Z) : string :=
  let '(t, c, z) := x in
  csv_line [isoformat t; c; string_of_Z z].

(** *** Auxiliary definitions of the proofs *)

(** The [Date] column of the calendar: day 20089 is 2025-01-01 and day
    20453 is 2025-12-31. *)
Definition Date_2025 : Series := map VTimestamp (days_between 20089 20453).

(** The pair of cells the simulation writes for one record. *)
Definition simulated_cells (c u : value) : Prop :=
  exists label z,
    c = VStr label /\ In label categories /\
    u = VInt z /\ In z (score_set label).

(** The records of a three-column table, column lists read in step. *)
Fixpoint rows_of (D C U : Series) : list Row :=
  match D, C, U with
  | d :: D', c :: C', u :: U' => record d c u :: rows_of D' C' U'
  | _, _, _ => []
  end.

(** What one entry does to one record. *)
Definition overwrite (to_datetime : string -> option Timestamp)
           (ev : event) (r : Row) : Row :=
  if addressed to_datetime ev r then
    match lookup "Date" r with
    | Some d => record d (VStr (event_category ev)) (VInt (event_score ev))
    | None => r
    end
  else r.

(** What the whole list does to one record, entries taken in order. *)
Definition overwrite_all (to_datetime : string -> option Timestamp)
           (evs : list event) (r : Row) : Row :=
  fold_left (fun r ev => overwrite to_datetime ev r) evs r.

(** At the date cell [d], every entry of the script's list addressed to
    [d] agrees on category and score with the last such entry. *)
Definition settled_at (d : value) : bool :=
  match find (fun ev => eq_text parse_iso (event_date ev) d)
             (rev actual_events) with
  | Some ev' =>
      forallb (fun ev =>
                 implb (eq_text parse_iso (event_date ev) d)
                       (String.eqb (event_category ev') (event_category ev)
                        && (event_score ev' =? event_score ev)))
              actual_events
  | None => forallb (fun ev => negb (eq_text parse_iso (event_date ev) d))
                    actual_events
  end.

Definition entry_in_range (ev : event) : bool :=
  existsb (String.eqb (event_category ev)) categories
  && (0 <=? event_score ev) && (event_score ev <=? 5).

Definition zrange (a : Z) (n : nat) : list Z :=
  map (fun i => a + Z.of_nat i) (seq 0 n).

(** Every timestamp of the list falls on a valid day of 2025, and the two
    calendar conversions agree on it. *)
Definition all_in_2025 (ts : list Timestamp) : bool :=
  forallb (fun t => let c := civil_from_days t in
                    (year c =? 2025) && valid_civil c
                    && (days_from_civil c =? t)) ts.

(** Every valid day of 2025 is the civil form of a timestamp of the list. *)
Definition covers_2025 (ts : list Timestamp) : bool :=
  let cs := map civil_from_days ts in
  forallb (fun m =>
    forallb (fun d =>
      implb (valid_civil (Civil 2025 m d))
            (existsb (civil_eqb (Civil 2025 m d)) cs))
      (zrange 1 31))
    (zrange 1 12).

Definition record_of_triple (x : Timestamp * string * Z) : Row :=
  let '(t, c, z) := x in record (VTimestamp t) (VStr c) (VInt z).

(** The triples the final table can hold. *)
Definition final_triples : list (Timestamp * string * Z) :=
  list_prod (list_prod (days_between 20089 20453) categories) (zrange 0 6).

(** The line written for [x] is the triple's plain text, holds no line
    break, and reads back as [x]. *)
Definition reads_back (x : Timestamp * string * Z) : bool :=
  let '(t, c, z) := x in
  let line := join "," [isoformat t; c; string_of_Z z] in
  String.eqb (csv_field c) c
  && negb (contains_char (ascii_of_nat 10) line)
  && match parse_iso (isoformat t) with
     | Some t' => t' =? t
     | None => false
     end
  && match read_record line with
     | Some (t', c', z') => (t' =? t) && String.eqb c' c && (z' =? z)
     | None => false
     end.

(** A random state whose every raw draw is [n]. *)
Definition constant_state (n : N) : RandomState :=
  mkRandomState (fun _ => n) 0.

(** A raw draw that makes the sampler return [z] for [label]. *)
Definition draw_for (label : string) (z : Z) : N :=
  if String.eqb label "Stable" then Z.to_N (z - 1)
  else if String.eqb label "Peak" then Z.to_N (z - 3)
  else if String.eqb label "Low_Perf" then Z.to_N z
  else if z =? 0 then 0%N
  else if z =? 1 then 3602879701896397%N
  else if z =? 4 then 5404319552844596%N
  else 7205759403792794%N.

(** A raw draw that makes the category sampler return [label]. *)
Definition draw_for_category (label : string) : N :=
  if String.eqb label "Stable" then 0%N
  else if String.eqb label "Peak" then 5404319552844596%N
  else if String.eqb label "Low_Perf" then 7205759403792794%N
  else 8556839292003943%N.

(** Some entry of the list is addressed to the record. *)
Definition addressed_by_some (to_datetime : string -> option Timestamp)
           (evs : list event) (r : Row) : bool :=
  existsb (fun ev => addressed to_datetime ev r) evs.

(** The category the sampler gives to the first day, when it returns. *)
Definition first_category (rs : RandomState) : option value :=
  match fst (assign_categories [("Date", Date_2025)] rs) with
  | Ok df => lookup "Category" (row_at df 0)
  | Raise _ => None
  end.

(** Strict lexicographic order of strings. *)
Definition string_lt (a b : string) : Prop := String.compare a b = Lt.

Definition category_of (x : Timestamp * string * Z) : value := VStr (snd (fst x)).
Definition score_of (x : Timestamp * string * Z) : value := VInt (snd x).

(** The triples of a list whose category is [k]. *)
Definition with_category (k : string) (ts : list (Timestamp * string * Z))
  : list (Timestamp * string * Z) :=
  filter (fun x => String.eqb (snd (fst x)) k) ts.

Definition total_count (s : list (string * describe_row)) : nat :=
  fold_right (fun r n => (count (snd r) + n)%nat) O s.

(* ===================================================================== *)
(** ** Examples *)
(* ===================================================================== *)

Example parse_new_year : parse_iso "2025-01-01" = Some 20089.
Proof. reflexivity. Qed.

Example format_new_year : isoformat 20089 = "2025-01-01".
Proof. reflexivity. Qed.

Example parse_rejects_feb_29 : parse_iso "2025-02-29" = None.
Proof. reflexivity. Qed.

Example read_one_record :
  read_record "2025-03-11,Peak,1" = Some (20158, "Peak", 1).
Proof. reflexivity. Qed.

(* ===================================================================== *)
(** ** Reasoning about computations in [M] *)
(* ===================================================================== *)

Lemma returns_ret {A} (a : A) (P : A -> Prop) : P a -> returns (ret a) P.
Proof. intros H rs. exists a, rs. split; [reflexivity | exact H]. Qed.

Lemma returns_bind {A B} (c : M A) (k : A -> M B) (P : A -> Prop) (Q : B -> Prop) :
  returns c P -> (forall a, P a -> returns (k a) Q) -> returns (bindM c k) Q.
Proof.
  intros Hc Hk rs. destruct (Hc rs) as (a & rs1 & E1 & Pa).
  destruct (Hk a Pa rs1) as (b & rs2 & E2 & Qb).
  exists b, rs2. unfold bindM. rewrite E1. split; assumption.
Qed.

Lemma returns_lift {A} (r : result A) (a : A) (P : A -> Prop) :
  r = Ok a -> P a -> returns (lift r) P.
Proof. intros -> H rs. exists a, rs. split; [reflexivity | exact H]. Qed.

Lemma returns_weaken {A} (c : M A) (P Q : A -> Prop) :
  returns c P -> (forall a, P a -> Q a) -> returns c Q.
Proof.
  intros Hc HPQ rs. destruct (Hc rs) as (a & rs' & E & Pa).
  exists a, rs'. auto.
Qed.

Lemma returns_replicateM {A} (c : M A) (P : A -> Prop) n :
  returns c P ->
  returns (replicateM n c) (fun l => List.length l = n /\ Forall P l).
Proof.
  intros Hc. induction n as [|n IH]; simpl.
  - apply returns_ret. split; [reflexivity | constructor].
  - eapply returns_bind; [exact Hc |]. intros x Px.
    eapply returns_bind; [exact IH |]. intros xs [Hlen Hall].
    apply returns_ret. simpl. split; [congruence | constructor; assumption].
Qed.

Lemma returns_mapM {A B} (f : A -> M B) (R : A -> B -> Prop) l :
  (forall x, In x l -> returns (f x) (R x)) ->
  returns (mapM f l) (fun ys => Forall2 R l ys).
Proof.
  induction l as [|x l IH]; intros H; simpl.
  - apply returns_ret. constructor.
  - eapply returns_bind; [apply H; left; reflexivity |]. intros y Ry.
    eapply returns_bind; [apply IH; intros; apply H; right; assumption |].
    intros ys Hys. apply returns_ret. constructor; assumption.
Qed.

(** ** The random primitives *)

Lemma random_sample_run rs :
  exists u, random_sample rs = (Ok u, advance rs) /\ (u < 1)%Q.
Proof.
  unfold random_sample, bindM, next_raw, ret, advance.
  eexists. split; [reflexivity |].
  unfold Qlt. cbn [Qnum Qden].
  assert (H : (stream rs (cursor rs) mod two53 < two53)%N)
    by (apply N.mod_lt; discriminate).
  unfold two53 in *. lia.
Qed.

Lemma randint_run low high rs :
  low < high ->
  exists z, randint low high rs = (Ok (z), advance rs) /\ low <= z < high.
Proof.
  intros H. unfold randint.
  destruct (Z.leb_spec high low) as [Hle|_]; [lia |].
  unfold bindM, next_raw, ret, advance. eexists. split; [reflexivity |].
  assert (Hm := Z.mod_pos_bound (Z.of_N (stream rs (cursor rs))) (high - low)).
  lia.
Qed.

Lemma searchsorted_right_lt cdf u d :
  cdf <> [] -> (u < last cdf d)%Q ->
  (searchsorted_right cdf u < List.length cdf)%nat.
Proof.
  induction cdf as [|c cdf IH]; intros Hne Hlast; [congruence |].
  simpl. destruct (Qle_bool c u) eqn:E; [| lia].
  destruct cdf as [|c' cdf'].
  - simpl in Hlast. apply Qle_bool_iff in E.
    exfalso. exact (Qlt_not_le _ _ Hlast E).
  - apply -> Nat.succ_lt_mono. apply IH; [discriminate | exact Hlast].
Qed.

Lemma pick_run {A} (a : list A) (p : list Q) rs :
  p <> [] -> List.length a = List.length p ->
  (last (map (fun c => c / last (cumsum 0 p) 1) (cumsum 0 p)) 0 == 1)%Q ->
  exists x, pick a p rs = (Ok x, advance rs) /\ In x a.
Proof.
  intros Hne Hlen Hlast. unfold pick, bindM.
  destruct (random_sample_run rs) as (u & -> & Hu).
  assert (Hi : (choice_index p u < List.length a)%nat).
  { unfold choice_index. rewrite Hlen.
    replace (List.length p)
      with (List.length (map (fun c => c / last (cumsum 0 p) 1) (cumsum 0 p)))%Q.
    - apply searchsorted_right_lt with (d := 0%Q).
      + destruct p; [congruence | discriminate].
      + rewrite Hlast. exact Hu.
    - rewrite length_map. clear. generalize 0%Q.
      induction p; intros q; simpl; [reflexivity | f_equal; apply IHp]. }
  destruct (nth_error a (choice_index p u)) as [x|] eqn:E.
  - exists x. split; [reflexivity | eapply nth_error_In; exact E].
  - apply nth_error_None in E. lia.
Qed.

Lemma choice_run {A} (a : list A) (p : list Q) rs :
  check_choice a p = Ok tt ->
  p <> [] -> List.length a = List.length p ->
  (last (map (fun c => c / last (cumsum 0 p) 1) (cumsum 0 p)) 0 == 1)%Q ->
  exists x, choice a p rs = (Ok x, advance rs) /\ In x a.
Proof.
  intros Hc Hne Hlen Hlast. unfold choice, bindM, lift. rewrite Hc.
  apply pick_run; assumption.
Qed.

(** ** The utility sampler *)

Lemma calculate_utility_run row label rs :
  lookup "Category" row = Some (VStr label) ->
  In label categories ->
  exists z,
    calculate_utility row rs = (Ok (VInt z), advance rs) /\
    In z (score_set label).
Proof.
  intros Hrow Hin. unfold calculate_utility, bindM, lift, getitem.
  rewrite Hrow.
  simpl in Hin. destruct Hin as [<-|[<-|[<-|[<-|[]]]]]; cbn [is_label String.eqb Ascii.eqb Bool.eqb].
  - destruct (randint_run 1 4 rs) as (z & -> & Hz); [lia |].
    exists z. split; [reflexivity |].
    change (In z [1; 2; 3]). simpl. lia.
  - destruct (randint_run 3 6 rs) as (z & -> & Hz); [lia |].
    exists z. split; [reflexivity |].
    change (In z [3; 4; 5]). simpl. lia.
  - destruct (randint_run 0 3 rs) as (z & -> & Hz); [lia |].
    exists z. split; [reflexivity |].
    change (In z [0; 1; 2]). simpl. lia.
  - destruct (choice_run [0; 1; 4; 5] [3 # 10; 2 # 10; 2 # 10; 3 # 10]%Q rs)
      as (z & -> & Hz);
      [reflexivity | discriminate | reflexivity | reflexivity |].
    exists z. split; [reflexivity | exact Hz].
Qed.

Lemma calculate_utility_returns row label :
  lookup "Category" row = Some (VStr label) ->
  In label categories ->
  returns (calculate_utility row)
          (fun u => exists z, u = VInt z /\ In z (score_set label)).
Proof.
  intros Hrow Hin rs.
  destruct (calculate_utility_run row label rs Hrow Hin) as (z & E & Hz).
  exists (VInt z), (advance rs). split; [exact E | exists z; auto].
Qed.

(** ** Shape of the simulated table *)

Lemma calendar_run : calendar = Ok [("Date", Date_2025)].
Proof. reflexivity. Qed.

Lemma length_Date_2025 : List.length Date_2025 = 365%nat.
Proof. reflexivity. Qed.

Lemma assign_categories_returns :
  returns (assign_categories [("Date", Date_2025)])
    (fun df => exists C,
       df = [("Date", Date_2025); ("Category", C)] /\
       List.length C = 365%nat /\
       Forall (fun c => exists label, c = VStr label /\ In label categories) C).
Proof.
  unfold assign_categories, choice_n.
  eapply returns_bind.
  - eapply returns_bind.
    + apply returns_lift with (a := tt) (P := fun _ => True); [reflexivity | exact I].
    + intros _ _. apply returns_replicateM with (P := fun c => In c categories).
      intros rs. destruct (pick_run categories probabilities rs) as (x & E & Hx);
        [discriminate | reflexivity | reflexivity |].
      exists x, (advance rs). auto.
  - intros drawn [Hlen Hall]. cbn [len] in Hlen. rewrite length_Date_2025 in Hlen.
    eapply returns_lift.
    + unfold setitem. cbn [len]. rewrite length_map, Hlen, length_Date_2025.
      reflexivity.
    + exists (map VStr drawn). split; [reflexivity |].
      split; [rewrite length_map; exact Hlen |].
      apply Forall_map. eapply Forall_impl; [| exact Hall].
      intros c Hc. exists c. auto.
Qed.

Lemma Forall2_seq_nth {A B} (P : A -> B -> Prop) (d : A) (l : list A) :
  forall (l' : list B) k,
  Forall2 (fun i y => P (nth (i - k) l d) y) (seq k (List.length l)) l' ->
  Forall2 P l l'.
Proof.
  induction l as [|x l IH]; intros l' k H; simpl in H.
  - inversion H. constructor.
  - inversion H as [|i y s ys Hxy Hrest]; subst.
    constructor.
    + rewrite Nat.sub_diag in Hxy. exact Hxy.
    + apply (IH ys (S k)).
      clear - Hrest. remember (seq (S k) (List.length l)) as s eqn:Es.
      assert (Hs : Forall (fun i => (S k <= i)%nat) s).
      { subst s. apply Forall_forall. intros i Hi. apply in_seq in Hi. lia. }
      clear Es. induction Hrest as [|i y s ys Hiy _ IHr]; constructor.
      * inversion Hs; subst.
        replace (i - k)%nat with (S (i - S k)) in Hiy by lia. exact Hiy.
      * apply IHr. inversion Hs; assumption.
Qed.

Lemma assign_scores_returns C :
  List.length C = 365%nat ->
  Forall (fun c => exists label, c = VStr label /\ In label categories) C ->
  returns (assign_scores [("Date", Date_2025); ("Category", C)])
    (fun df => exists U,
       df = table Date_2025 C U /\
       List.length U = 365%nat /\ Forall2 simulated_cells C U).
Proof.
  intros Hlen Hall. unfold assign_scores, apply_rows.
  cbn [len]. rewrite length_Date_2025.
  eapply returns_bind.
  - apply returns_mapM
      with (R := fun i u => simulated_cells (nth (i - 0) C VNone) u).
    intros i Hi. apply in_seq in Hi.
    assert (Hc : In (nth i C VNone) C) by (apply nth_In; lia).
    rewrite Forall_forall in Hall. destruct (Hall _ Hc) as (label & Ec & Hl).
    eapply returns_weaken.
    + apply calculate_utility_returns with (label := label); [| exact Hl].
      cbn. rewrite Ec. reflexivity.
    + intros u (z & -> & Hz). exists label, z.
      rewrite Nat.sub_0_r. auto.
  - intros U HU.
    assert (HlenU : List.length U = 365%nat).
    { apply Forall2_length in HU. rewrite length_seq in HU. auto. }
    eapply returns_lift.
    + unfold setitem. cbn [len]. rewrite HlenU, length_Date_2025. reflexivity.
    + exists U. split; [reflexivity |]. split; [exact HlenU |].
      apply Forall2_seq_nth with (d := VNone) (k := 0%nat).
      rewrite Hlen. exact HU.
Qed.

Lemma simulate_returns :
  returns simulate
    (fun df => exists C U,
       df = table Date_2025 C U /\
       List.length C = 365%nat /\ List.length U = 365%nat /\
       Forall2 simulated_cells C U).
Proof.
  unfold simulate.
  eapply returns_bind;
    [apply returns_lift
       with (a := [("Date", Date_2025)])
            (P := fun df => df = [("Date", Date_2025)]);
     [exact calendar_run | reflexivity] |].
  intros df ->.
  eapply returns_bind; [exact assign_categories_returns |].
  intros df (C & -> & Hlen & Hall).
  eapply returns_weaken; [apply assign_scores_returns; assumption |].
  intros df (U & -> & HlenU & HU). exists C, U. auto.
Qed.

(** ** Records of a three-column table *)

Lemma records_table D : forall C U,
  List.length C = List.length D -> List.length U = List.length D ->
  records (table D C U) = rows_of D C U.
Proof.
  unfold records. cbn [len table].
  induction D as [|d D IH]; intros C U HC HU.
  - reflexivity.
  - destruct C as [|c C]; [discriminate |]. destruct U as [|u U]; [discriminate |].
    simpl in HC, HU. injection HC as HC. injection HU as HU.
    cbn [List.length seq map rows_of]. f_equal.
    rewrite <- seq_shift, map_map. rewrite <- (IH C U HC HU).
    apply map_ext. intros i. reflexivity.
Qed.

Lemma rows_of_records D : forall C U,
  Forall (fun r => exists d c u, r = record d c u) (rows_of D C U).
Proof.
  induction D as [|d D IH]; intros [|c C] [|u U]; simpl; try constructor.
  - exists d, c, u. reflexivity.
  - apply IH.
Qed.

Lemma length_where_set v : forall mask s,
  List.length (where_set mask v s) = List.length s.
Proof.
  induction mask as [|m mask IH]; intros [|x s]; simpl; auto.
Qed.

Section OverrideFacts.

Variable to_datetime : string -> option Timestamp.

Lemma addressed_record ev d c u :
  addressed to_datetime ev (record d c u)
  = eq_text to_datetime (event_date ev) d.
Proof. reflexivity. Qed.

Lemma overwrite_record ev d c u :
  overwrite to_datetime ev (record d c u)
  = if eq_text to_datetime (event_date ev) d
    then record d (VStr (event_category ev)) (VInt (event_score ev))
    else record d c u.
Proof.
  unfold overwrite. rewrite addressed_record.
  destruct (eq_text to_datetime (event_date ev) d); reflexivity.
Qed.

Lemma rows_of_where_set date cat score D : forall C U,
  rows_of D (where_set (map (eq_text to_datetime date) D) (VStr cat) C)
            (where_set (map (eq_text to_datetime date) D) (VInt score) U)
  = map (overwrite to_datetime (date, cat, score)) (rows_of D C U).
Proof.
  induction D as [|d D IH]; intros [|c C] [|u U]; try reflexivity.
  cbn [map where_set rows_of]. rewrite IH, overwrite_record.
  cbn [event_date event_category event_score fst snd].
  destruct (eq_text to_datetime date d); reflexivity.
Qed.

Lemma apply_event_table ev D C U :
  exists C' U',
    apply_event to_datetime ev (table D C U) = Ok (table D C' U') /\
    List.length C' = List.length C /\ List.length U' = List.length U /\
    rows_of D C' U' = map (overwrite to_datetime ev) (rows_of D C U).
Proof.
  destruct ev as [[date cat] score].
  exists (where_set (map (eq_text to_datetime date) D) (VStr cat) C),
         (where_set (map (eq_text to_datetime date) D) (VInt score) U).
  split; [reflexivity |].
  rewrite !length_where_set. split; [reflexivity |]. split; [reflexivity |].
  apply rows_of_where_set.
Qed.

Lemma apply_overrides_table evs D : forall C U,
  exists C' U',
    apply_overrides to_datetime evs (table D C U) = Ok (table D C' U') /\
    List.length C' = List.length C /\ List.length U' = List.length U /\
    rows_of D C' U' = map (overwrite_all to_datetime evs) (rows_of D C U).
Proof.
  induction evs as [|ev evs IH]; intros C U.
  - exists C, U. repeat split; try reflexivity.
    unfold overwrite_all. simpl. symmetry. apply map_id.
  - destruct (apply_event_table ev D C U) as (C1 & U1 & E1 & HC1 & HU1 & R1).
    destruct (IH C1 U1) as (C2 & U2 & E2 & HC2 & HU2 & R2).
    exists C2, U2. cbn [apply_overrides]. rewrite E1. cbn [Py.bind].
    split; [exact E2 |]. split; [congruence |]. split; [congruence |].
    rewrite R2, R1, map_map. reflexivity.
Qed.

(** *** What the list does to one record *)

Lemma last_addressed_record evs d c u :
  last_addressed to_datetime evs (record d c u)
  = find (fun ev => eq_text to_datetime (event_date ev) d) (rev evs).
Proof. reflexivity. Qed.

Lemma overwrite_all_record evs : forall d c u,
  overwrite_all to_datetime evs (record d c u)
  = match last_addressed to_datetime evs (record d c u) with
    | Some ev => record d (VStr (event_category ev)) (VInt (event_score ev))
    | None => record d c u
    end.
Proof.
  induction evs as [|ev evs IH] using rev_ind; intros d c u.
  - reflexivity.
  - unfold overwrite_all. rewrite fold_left_app. cbn [fold_left].
    fold (overwrite_all to_datetime evs (record d c u)).
    rewrite IH, !last_addressed_record, rev_app_distr. cbn [rev app find].
    destruct (find _ (rev evs)) as [ev'|];
      rewrite overwrite_record;
      destruct (eq_text to_datetime (event_date ev) d); reflexivity.
Qed.

Lemma overwrite_all_idempotent evs d c u :
  overwrite_all to_datetime evs (overwrite_all to_datetime evs (record d c u))
  = overwrite_all to_datetime evs (record d c u).
Proof.
  rewrite (overwrite_all_record evs d c u), last_addressed_record.
  destruct (find _ (rev evs)) as [ev|] eqn:E.
  - rewrite overwrite_all_record, last_addressed_record, E. reflexivity.
  - rewrite overwrite_all_record, last_addressed_record, E. reflexivity.
Qed.

Lemma overwrite_all_unaddressed evs d c u :
  Forall (fun ev => addressed to_datetime ev (record d c u) = false) evs ->
  overwrite_all to_datetime evs (record d c u) = record d c u.
Proof.
  intros H. rewrite overwrite_all_record.
  destruct (last_addressed _ _ _) as [ev|] eqn:E; [| reflexivity].
  unfold last_addressed in E. apply find_some in E. destruct E as [Hin Ha].
  apply in_rev in Hin. rewrite Forall_forall in H.
  rewrite (H ev Hin) in Ha. discriminate.
Qed.

(** *** No match, no change *)

Lemma where_set_unmatched v : forall mask s,
  Forall (fun m => m = false) mask -> where_set mask v s = s.
Proof.
  induction mask as [|m mask IH]; intros [|x s] H; try reflexivity.
  inversion H; subst. simpl. f_equal. apply IH. assumption.
Qed.

Lemma loc_set_unmatched mask name v : forall df,
  Forall (fun m => m = false) mask ->
  In name (columns df) -> loc_set mask name v df = df.
Proof.
  induction df as [|[k c] df IH]; intros Hm Hin; [destruct Hin |].
  simpl. destruct (String.eqb k name) eqn:E.
  - rewrite where_set_unmatched by assumption. reflexivity.
  - f_equal. apply IH; [assumption |].
    destruct Hin as [Hk|Hin]; [| exact Hin].
    simpl in Hk. subst k. rewrite String.eqb_refl in E. discriminate.
Qed.

End OverrideFacts.

(** ** Checks over the fixed list and the calendar *)

Lemma entries_settle : forallb settled_at Date_2025 = true.
Proof. vm_compute. reflexivity. Qed.

Lemma entries_reach :
  forallb (fun ev => existsb (eq_text parse_iso (event_date ev)) Date_2025)
          actual_events = true.
Proof. vm_compute. reflexivity. Qed.

Lemma entries_in_range : forallb entry_in_range actual_events = true.
Proof. vm_compute. reflexivity. Qed.

Lemma rows_of_In D : forall C U r,
  In r (rows_of D C U) ->
  exists d c u, r = record d c u /\ In d D /\ In c C /\ In u U.
Proof.
  induction D as [|d D IH]; intros [|c C] [|u U] r H; simpl in H; try tauto.
  destruct H as [<-|H].
  - exists d, c, u. simpl. auto.
  - destruct (IH C U r H) as (d' & c' & u' & -> & Hd & Hc & Hu).
    exists d', c', u'. simpl. auto.
Qed.

Lemma rows_of_cover D : forall C U d,
  List.length C = List.length D -> List.length U = List.length D ->
  In d D -> exists c u, In (record d c u) (rows_of D C U).
Proof.
  induction D as [|d0 D IH]; intros [|c C] [|u U] d HC HU Hd;
    try discriminate; [destruct Hd |].
  simpl in HC, HU. injection HC as HC. injection HU as HU.
  destruct Hd as [<-|Hd].
  - exists c, u. left. reflexivity.
  - destruct (IH C U d HC HU Hd) as (c' & u' & H). exists c', u'. right. exact H.
Qed.

Lemma rows_of_inj D : forall C U C' U',
  List.length C = List.length D -> List.length U = List.length D ->
  List.length C' = List.length D -> List.length U' = List.length D ->
  rows_of D C U = rows_of D C' U' -> C = C' /\ U = U'.
Proof.
  induction D as [|d D IH]; intros [|c C] [|u U] [|c' C'] [|u' U'];
    simpl; intros H1 H2 H3 H4 E; try discriminate; [split; reflexivity |].
  injection E as Ec Eu E.
  destruct (IH C U C' U') as [-> ->]; try lia; try assumption.
  subst. split; reflexivity.
Qed.

Lemma rows_of_simulated D : forall C U,
  List.length C = List.length D ->
  Forall2 simulated_cells C U -> Forall record_simulated (rows_of D C U).
Proof.
  induction D as [|d D IH]; intros C U HC HF.
  - destruct C, U; constructor.
  - destruct HF as [|c u C U Hcu HF]; [discriminate |].
    simpl in HC. injection HC as HC. cbn [rows_of]. constructor.
    + destruct Hcu as (label & z & -> & Hl & -> & Hz).
      exists label, z. repeat split; assumption.
    + apply IH; assumption.
Qed.

Lemma score_set_in_range label z :
  In label categories -> In z (score_set label) -> 0 <= z <= 5.
Proof.
  simpl. intros [<-|[<-|[<-|[<-|[]]]]] H; vm_compute in H; intuition lia.
Qed.

Lemma record_simulated_in_range r : record_simulated r -> record_in_range r.
Proof.
  intros (label & z & Hc & Hl & Hu & Hz). exists label, z.
  repeat split; try assumption; eapply score_set_in_range; eassumption.
Qed.

(** ** The run of the script *)

Lemma script_run rs :
  exists C U C' U',
    runs_to rs (table Date_2025 C U) (table Date_2025 C' U') /\
    (List.length C = 365 /\ List.length U = 365 /\
     List.length C' = 365 /\ List.length U' = 365)%nat /\
    Forall2 simulated_cells C U /\
    records (table Date_2025 C U) = rows_of Date_2025 C U /\
    records (table Date_2025 C' U')
    = map (overwrite_all parse_iso actual_events) (rows_of Date_2025 C U).
Proof.
  destruct (simulate_returns rs) as (df & rs' & Hsim & C & U & -> & HC & HU & HF).
  destruct (apply_overrides_table parse_iso actual_events Date_2025 C U)
    as (C' & U' & Hov & HC' & HU' & R).
  exists C, U, C', U'.
  split; [exists rs'; split; assumption |].
  split; [repeat split; congruence |].
  split; [exact HF |].
  rewrite !records_table by (rewrite length_Date_2025; congruence).
  split; [reflexivity | exact R].
Qed.

Lemma Date_2025_In t :
  20089 <= t <= 20453 -> In (VTimestamp t) Date_2025.
Proof.
  intros H. unfold Date_2025, days_between. apply in_map.
  change (Z.to_nat (20453 - 20089 + 1)) with 365%nat.
  apply in_map_iff. exists (Z.to_nat (t - 20089)).
  split; [lia | apply in_seq; lia].
Qed.

Lemma Forall2_map_right {A B} (P : A -> B -> Prop) (f : A -> B) l :
  Forall (fun x => P x (f x)) l -> Forall2 P l (map f l).
Proof. induction 1; simpl; constructor; assumption. Qed.

Lemma addressed_overwrite_all td evs ev d c u :
  addressed td ev (overwrite_all td evs (record d c u))
  = eq_text td (event_date ev) d.
Proof.
  rewrite overwrite_all_record.
  destruct (last_addressed td evs (record d c u)); reflexivity.
Qed.

Lemma lookup_Date_overwrite_all td evs d c u :
  lookup "Date" (overwrite_all td evs (record d c u)) = Some d.
Proof.
  rewrite overwrite_all_record.
  destruct (last_addressed td evs (record d c u)); reflexivity.
Qed.

Lemma last_addressed_overwrite_all td evs evs' d c u :
  last_addressed td evs' (overwrite_all td evs (record d c u))
  = find (fun ev => eq_text td (event_date ev) d) (rev evs').
Proof.
  rewrite overwrite_all_record.
  destruct (last_addressed td evs (record d c u)); reflexivity.
Qed.

Lemma zrange_In a n z : a <= z < a + Z.of_nat n -> In z (zrange a n).
Proof.
  intros H. unfold zrange. apply in_map_iff.
  exists (Z.to_nat (z - a)). split; [lia | apply in_seq; lia].
Qed.

Lemma civil_eqb_eq a b : civil_eqb a b = true -> a = b.
Proof.
  destruct a, b. unfold civil_eqb. cbn [year month day].
  intros H. apply andb_prop in H. destruct H as [H Hd].
  apply andb_prop in H. destruct H as [Hy Hm].
  apply Z.eqb_eq in Hy, Hm, Hd. subst. reflexivity.
Qed.

Lemma days_in_month_le y m : days_in_month y m <= 31.
Proof.
  unfold days_in_month.
  destruct (m =? 2); [destruct (is_leap y); lia |].
  destruct (_ || _); lia.
Qed.

Lemma days_between_sorted a : forall n k,
  StronglySorted Z.lt (map (fun i => a + Z.of_nat i) (seq k n)).
Proof.
  induction n as [|n IH]; intros k; simpl; constructor.
  - apply IH.
  - apply Forall_map, Forall_forall. intros i Hi. apply in_seq in Hi. lia.
Qed.

Lemma sorted_NoDup (l : list Z) : StronglySorted Z.lt l -> NoDup l.
Proof.
  induction 1 as [|a l _ IH Hall]; constructor; [| exact IH].
  intros Hin. rewrite Forall_forall in Hall. specialize (Hall a Hin). lia.
Qed.

Lemma records_single name (s : Series) :
  records [(name, s)] = map (fun v => [(name, v)]) s.
Proof.
  unfold records. cbn [len]. induction s as [|v s IH]; [reflexivity |].
  cbn [List.length seq map]. f_equal.
  rewrite <- seq_shift, map_map, <- IH. apply map_ext. intros i. reflexivity.
Qed.

Lemma all_in_2025_sound ts :
  all_in_2025 ts = true ->
  forall t, In t ts ->
    day_of_year 2025 (civil_from_days t) /\
    days_from_civil (civil_from_days t) = t.
Proof.
  unfold all_in_2025. rewrite forallb_forall. intros H t Ht.
  specialize (H t Ht). cbv zeta in H.
  apply andb_prop in H. destruct H as [H Hr].
  apply andb_prop in H. destruct H as [Hy Hv].
  apply Z.eqb_eq in Hy, Hr. repeat split; assumption.
Qed.

Lemma covers_2025_sound ts :
  covers_2025 ts = true ->
  forall c, day_of_year 2025 c -> In c (map civil_from_days ts).
Proof.
  unfold covers_2025. cbv zeta. rewrite forallb_forall. intros Hcov c [Hy Hv].
  destruct c as [y m d]. cbn [year] in Hy. subst y.
  assert (Hb : 1 <= m <= 12 /\ 1 <= d <= 31).
  { unfold valid_civil in Hv. cbn [year month day] in Hv.
    assert (Hd := days_in_month_le 2025 m).
    apply andb_prop in Hv. destruct Hv as [Hv H4].
    apply andb_prop in Hv. destruct Hv as [Hv H3].
    apply andb_prop in Hv. destruct Hv as [H1 H2].
    apply Z.leb_le in H1, H2, H3, H4. lia. }
  specialize (Hcov m (zrange_In 1 12 m ltac:(lia))).
  rewrite forallb_forall in Hcov.
  specialize (Hcov d (zrange_In 1 31 d ltac:(lia))).
  rewrite Hv in Hcov. cbn [implb] in Hcov.
  apply existsb_exists in Hcov. destruct Hcov as (c & Hc & E).
  apply civil_eqb_eq in E. rewrite E. exact Hc.
Qed.

Lemma days_2025_checked :
  all_in_2025 (days_between 20089 20453) = true /\
  covers_2025 (days_between 20089 20453) = true.
Proof. split; vm_compute; reflexivity. Qed.

Lemma calendar_text :
  calendar = Ok [("Date", map VTimestamp (days_between 20089 20453))] /\
  List.length (days_between 20089 20453) = 365%nat /\
  map isoformat (firstn 1 (days_between 20089 20453)) = ["2025-01-01"] /\
  map isoformat (skipn 364 (days_between 20089 20453)) = ["2025-12-31"].
Proof. repeat split; vm_compute; reflexivity. Qed.

Lemma final_triples_read_back : forallb reads_back final_triples = true.
Proof. vm_compute. reflexivity. Qed.

(** ** Strings *)

Lemma append_nil_r (s : string) : s ++ "" = s.
Proof. induction s as [|a s IH]; simpl; [reflexivity | rewrite IH; reflexivity]. Qed.

Lemma append_assoc (a b c : string) : (a ++ b) ++ c = a ++ (b ++ c).
Proof. induction a as [|x a IH]; simpl; [reflexivity | rewrite IH; reflexivity]. Qed.

Lemma concat_empty_cons (x : string) (xs : list string) :
  String.concat "" (x :: xs) = x ++ String.concat "" xs.
Proof. destruct xs; simpl; [rewrite append_nil_r |]; reflexivity. Qed.

Lemma split_on_app sep (a b : string) :
  contains_char sep a = false ->
  split_on sep (a ++ String sep b) = a :: split_on sep b.
Proof.
  induction a as [|x a IH]; simpl; intros H.
  - rewrite Ascii.eqb_refl. reflexivity.
  - apply orb_false_elim in H. destruct H as [Hx Ha].
    rewrite Ascii.eqb_sym, Hx, (IH Ha). reflexivity.
Qed.

Lemma split_lines (ls : list string) :
  Forall (fun l => contains_char (ascii_of_nat 10) l = false) ls ->
  split_on (ascii_of_nat 10) (String.concat "" (map (fun l => l ++ newline) ls))
  = (ls ++ [""])%list.
Proof.
  induction 1 as [|l ls Hl _ IH]; [reflexivity |].
  cbn [map]. rewrite concat_empty_cons, append_assoc.
  change (newline ++ String.concat "" (map (fun l0 => l0 ++ newline) ls))
    with (String (ascii_of_nat 10)
                 (String.concat "" (map (fun l0 => l0 ++ newline) ls))).
  rewrite (split_on_app _ _ _ Hl), IH. reflexivity.
Qed.

(** ** The exported text *)

Lemma to_csv_text_records (df : DataFrame) :
  to_csv_text df
  = String.concat ""
      (map (fun l => l ++ newline)
           (join "," (map csv_field (columns df))
            :: map (fun r => join "," (map (fun kv => csv_cell (snd kv)) r))
                   (records df))).
Proof.
  unfold to_csv_text, records. cbn [map].
  rewrite concat_empty_cons, !map_map. reflexivity.
Qed.

Lemma reads_back_sound x :
  In x final_triples ->
  let '(t, c, z) := x in
  csv_field c = c /\
  contains_char (ascii_of_nat 10) (join "," [isoformat t; c; string_of_Z z]) = false /\
  parse_iso (isoformat t) = Some t /\
  read_record (join "," [isoformat t; c; string_of_Z z]) = Some (t, c, z).
Proof.
  intros Hin. assert (H := final_triples_read_back).
  rewrite forallb_forall in H. specialize (H x Hin).
  destruct x as [[t c] z]. unfold reads_back in H.
  apply andb_prop in H. destruct H as [H H4].
  apply andb_prop in H. destruct H as [H H3].
  apply andb_prop in H. destruct H as [H1 H2].
  apply String.eqb_eq in H1. apply negb_true_iff in H2.
  split; [exact H1 |]. split; [exact H2 |]. split.
  - destruct (parse_iso (isoformat t)) as [t'|]; [| discriminate].
    apply Z.eqb_eq in H3. congruence.
  - destruct (read_record _) as [[[t' c'] z']|]; [| discriminate].
    apply andb_prop in H4. destruct H4 as [H4 Hz].
    apply andb_prop in H4. destruct H4 as [Ht Hc].
    apply Z.eqb_eq in Ht, Hz. apply String.eqb_eq in Hc. congruence.
Qed.

Lemma read_records_lines ts :
  Forall (fun x => In x final_triples) ts ->
  read_records
    (map (fun x => let '(t, c, z) := x in
                   join "," [isoformat t; c; string_of_Z z]) ts)
  = Some ts.
Proof.
  induction 1 as [|x ts Hx _ IH]; [reflexivity |].
  cbn [map read_records]. rewrite IH.
  apply reads_back_sound in Hx. destruct x as [[t c] z].
  destruct Hx as (_ & _ & _ & ->). reflexivity.
Qed.

Lemma csv_of_triples (df : DataFrame) ts :
  columns df = ["Date"; "Category"; "Utility_Score"] ->
  records df = map record_of_triple ts ->
  Forall (fun x => In x final_triples) ts ->
  to_csv_text df
  = "Date,Category,Utility_Score" ++ newline
    ++ String.concat "" (map text_of_triple ts) /\
  read_csv (to_csv_text df) = Some (["Date"; "Category"; "Utility_Score"], ts).
Proof.
  intros Hcols Hrec Hall.
  assert (Hlines :
    map (fun r => join "," (map (fun kv => csv_cell (snd kv)) r)) (records df)
    = map (fun x => let '(t, c, z) := x in
                    join "," [isoformat t; c; string_of_Z z]) ts).
  { rewrite Hrec, map_map. apply map_ext_in. intros x Hx.
    rewrite Forall_forall in Hall. apply Hall, reads_back_sound in Hx.
    destruct x as [[t c] z]. destruct Hx as (Hc & _).
    cbn. rewrite Hc. reflexivity. }
  rewrite to_csv_text_records, Hcols, Hlines. split.
  - cbn [map]. rewrite concat_empty_cons, map_map, append_assoc.
    change (join "," [csv_field "Date"; csv_field "Category";
                      csv_field "Utility_Score"])
      with "Date,Category,Utility_Score".
    do 3 f_equal. apply map_ext. intros [[t c] z]. reflexivity.
  - unfold read_csv. rewrite split_lines.
    + cbn [app]. rewrite rev_app_distr. cbn [rev app].
      rewrite rev_involutive, read_records_lines by exact Hall. reflexivity.
    + constructor; [reflexivity |].
      apply Forall_map. eapply Forall_impl; [| exact Hall].
      intros x Hx. apply reads_back_sound in Hx. destruct x as [[t c] z].
      tauto.
Qed.

Lemma Date_2025_inv d :
  In d Date_2025 -> exists t, d = VTimestamp t /\ In t (days_between 20089 20453).
Proof.
  unfold Date_2025. intros H. apply in_map_iff in H.
  destruct H as (t & <- & Ht). exists t. auto.
Qed.

Lemma overwrite_all_in_range d c u :
  record_in_range (record d c u) ->
  record_in_range (overwrite_all parse_iso actual_events (record d c u)).
Proof.
  intros H1. rewrite overwrite_all_record.
  destruct (last_addressed _ _ _) as [ev|] eqn:E; [| exact H1].
  unfold last_addressed in E. apply find_some in E. destruct E as [Hev _].
  apply in_rev in Hev.
  assert (Hr := entries_in_range). rewrite forallb_forall in Hr.
  specialize (Hr ev Hev). unfold entry_in_range in Hr.
  apply andb_prop in Hr. destruct Hr as [Hr Hhi].
  apply andb_prop in Hr. destruct Hr as [Hcat Hlo].
  apply existsb_exists in Hcat. destruct Hcat as (label & Hl & El).
  apply String.eqb_eq in El.
  exists (event_category ev), (event_score ev).
  split; [reflexivity |]. split; [rewrite El; exact Hl |].
  split; [reflexivity | lia].
Qed.

Lemma in_range_triple t c u :
  In t (days_between 20089 20453) ->
  record_in_range (record (VTimestamp t) c u) ->
  exists x, record (VTimestamp t) c u = record_of_triple x /\ In x final_triples.
Proof.
  intros Ht (label & z & Hc & Hl & Hu & Hz).
  cbn in Hc, Hu. injection Hc as ->. injection Hu as ->.
  exists (t, label, z). split; [reflexivity |].
  unfold final_triples. apply in_prod; [apply in_prod; assumption |].
  apply zrange_In. lia.
Qed.

Lemma triples_of_records (l : list Row) :
  Forall (fun r => exists x, r = record_of_triple x /\ In x final_triples) l ->
  exists ts, l = map record_of_triple ts /\
             Forall (fun x => In x final_triples) ts.
Proof.
  induction 1 as [|r l (x & -> & Hx) _ (ts & -> & Hts)].
  - exists []. split; [reflexivity | constructor].
  - exists (x :: ts). split; [reflexivity | constructor; assumption].
Qed.

Lemma final_table rs :
  exists df1 df2 ts,
    runs_to rs df1 df2 /\
    columns df2 = ["Date"; "Category"; "Utility_Score"] /\
    len df2 = 365%nat /\
    records df2 = map record_of_triple ts /\
    Forall (fun x => In x final_triples) ts.
Proof.
  destruct (script_run rs)
    as (C & U & C' & U' & Hrun & (HC & HU & HC' & HU') & HF & R1 & R2).
  assert (H1 : Forall record_in_range (rows_of Date_2025 C U)).
  { eapply Forall_impl; [exact record_simulated_in_range |].
    apply rows_of_simulated; [rewrite length_Date_2025; exact HC | exact HF]. }
  destruct (triples_of_records (records (table Date_2025 C' U')))
    as (ts & Hts & Hall).
  { rewrite R2. apply Forall_map. rewrite Forall_forall in H1 |- *.
    intros r0 Hr0. specialize (H1 r0 Hr0).
    apply rows_of_In in Hr0. destruct Hr0 as (d & c & u & -> & Hd & _).
    apply Date_2025_inv in Hd. destruct Hd as (t & -> & Ht).
    apply overwrite_all_in_range in H1.
    rewrite overwrite_all_record in H1 |- *.
    destruct (last_addressed _ _ _); apply in_range_triple; assumption. }
  exists (table Date_2025 C U), (table Date_2025 C' U'), ts.
  split; [exact Hrun |]. split; [reflexivity |]. split; [reflexivity |].
  split; assumption.
Qed.

Lemma triple_of_record x : triple_of (record_of_triple x) = Some x.
Proof. destruct x as [[t c] z]. reflexivity. Qed.

(* ===================================================================== *)
(** ** The claims *)
(* ===================================================================== *)

(** C1.  After the override loop, every entry of [actual_events] reaches a
    record of the calendar, and every record an entry is addressed to
    carries that entry's category and score, whatever the simulation had
    drawn.  For any list of entries run on the simulated table, a record
    carries the values of the last entry addressed to it.  The record of
    2025-01-01 ends as Peak with score 3. *)
Theorem override_entries_applied (rs : RandomState) :
  exists df1 df2,
    runs_to rs df1 df2 /\
    Forall (fun ev =>
              (exists r, In r (records df2) /\ addressed parse_iso ev r = true) /\
              (forall r, In r (records df2) ->
                         addressed parse_iso ev r = true ->
                         lookup "Category" r = Some (VStr (event_category ev)) /\
                         lookup "Utility_Score" r = Some (VInt (event_score ev))))
           actual_events /\
    (forall evs, exists df,
        apply_overrides parse_iso evs df1 = Ok df /\
        Forall (fun r => forall ev,
                    last_addressed parse_iso evs r = Some ev ->
                    lookup "Category" r = Some (VStr (event_category ev)) /\
                    lookup "Utility_Score" r = Some (VInt (event_score ev)))
               (records df)) /\
    In (record (VTimestamp 20089) (VStr "Peak") (VInt 3)) (records df2) /\
    (forall r, In r (records df2) ->
               lookup "Date" r = option_map VTimestamp (parse_iso "2025-01-01") ->
               r = record (VTimestamp 20089) (VStr "Peak") (VInt 3)).
Proof.
  destruct (script_run rs)
    as (C & U & C' & U' & Hrun & (HC & HU & HC' & HU') & HF & R1 & R2).
  exists (table Date_2025 C U), (table Date_2025 C' U').
  split; [exact Hrun |].
  assert (E0 : find (fun ev => eq_text parse_iso (event_date ev) (VTimestamp 20089))
                    (rev actual_events) = Some ("2025-01-01", "Peak", 3))
    by (vm_compute; reflexivity).
  split; [| split; [| split]].
  - apply Forall_forall. intros ev Hev. split.
    + assert (Hr := entries_reach). rewrite forallb_forall in Hr.
      specialize (Hr ev Hev). apply existsb_exists in Hr.
      destruct Hr as (d & Hd & Hm).
      destruct (rows_of_cover Date_2025 C U d) as (c & u & Hin);
        [rewrite length_Date_2025; assumption ..| exact Hd |].
      exists (overwrite_all parse_iso actual_events (record d c u)).
      split; [rewrite R2; apply in_map; exact Hin |].
      rewrite addressed_overwrite_all. exact Hm.
    + intros r Hr Ha. rewrite R2 in Hr. apply in_map_iff in Hr.
      destruct Hr as (r0 & <- & Hr0).
      apply rows_of_In in Hr0. destruct Hr0 as (d & c & u & -> & Hd & _ & _).
      rewrite addressed_overwrite_all in Ha.
      assert (Hs := entries_settle). rewrite forallb_forall in Hs.
      specialize (Hs d Hd). unfold settled_at in Hs.
      rewrite overwrite_all_record, last_addressed_record.
      destruct (find (fun ev0 => eq_text parse_iso (event_date ev0) d)
                     (rev actual_events)) as [ev'|].
      * rewrite forallb_forall in Hs. specialize (Hs ev Hev).
        rewrite Ha in Hs. cbn [implb] in Hs.
        apply andb_prop in Hs. destruct Hs as [Hc Hz].
        apply String.eqb_eq in Hc. apply Z.eqb_eq in Hz.
        rewrite <- Hc, <- Hz. split; reflexivity.
      * rewrite forallb_forall in Hs. specialize (Hs ev Hev).
        rewrite Ha in Hs. discriminate.
  - intros evs.
    destruct (apply_overrides_table parse_iso evs Date_2025 C U)
      as (C2 & U2 & Hov & HC2 & HU2 & R).
    exists (table Date_2025 C2 U2). split; [exact Hov |].
    rewrite records_table by (rewrite length_Date_2025; congruence).
    rewrite R. apply Forall_forall. intros r Hr ev Hev.
    apply in_map_iff in Hr. destruct Hr as (r0 & <- & Hr0).
    apply rows_of_In in Hr0. destruct Hr0 as (d & c & u & -> & _).
    rewrite last_addressed_overwrite_all in Hev.
    rewrite overwrite_all_record, last_addressed_record, Hev.
    split; reflexivity.
  - destruct (rows_of_cover Date_2025 C U (VTimestamp 20089)) as (c & u & Hin);
      [rewrite length_Date_2025; assumption ..| apply Date_2025_In; lia |].
    rewrite R2. apply in_map_iff. exists (record (VTimestamp 20089) c u).
    split; [| exact Hin].
    rewrite overwrite_all_record, last_addressed_record, E0. reflexivity.
  - intros r Hr Hdate. rewrite R2 in Hr. apply in_map_iff in Hr.
    destruct Hr as (r0 & <- & Hr0).
    apply rows_of_In in Hr0. destruct Hr0 as (d & c & u & -> & _).
    rewrite lookup_Date_overwrite_all in Hdate.
    change (parse_iso "2025-01-01") with (Some 20089) in Hdate.
    injection Hdate as ->.
    rewrite overwrite_all_record, last_addressed_record, E0. reflexivity.
Qed.

Lemma override_entries_applied_witness :
  exists df1 df2,
    runs_to sample_state df1 df2 /\
    exists r,
      In r (records df2) /\
      lookup "Date" r = Some (VTimestamp 20089) /\
      r = record (VTimestamp 20089) (VStr "Peak") (VInt 3).
Proof.
  destruct (override_entries_applied sample_state)
    as (df1 & df2 & Hrun & _ & _ & Hin & Hone).
  exists df1, df2. split; [exact Hrun |].
  exists (record (VTimestamp 20089) (VStr "Peak") (VInt 3)).
  split; [exact Hin |]. split; [reflexivity |].
  apply (Hone _ Hin). reflexivity.
Defined.

Example later_entry_wins :
  apply_overrides parse_iso
    [("2025-01-01", "Peak", 3); ("2025-01-01", "Crisis", 0)]
    (table [VTimestamp 20089] [VStr "Stable"] [VInt 2])
  = Ok (table [VTimestamp 20089] [VStr "Crisis"] [VInt 0]).
Proof. reflexivity. Qed.

(** C2.  The calendar is a table with the single column [Date] (no
    category, no score yet) holding 365 timestamps: strictly ascending,
    hence without duplicates, and standing for exactly the valid days of
    2025, from 2025-01-01 to 2025-12-31. *)
Theorem calendar_covers_2025 :
  exists ts,
    calendar = Ok [("Date", map VTimestamp ts)] /\
    columns [("Date", map VTimestamp ts)] = ["Date"] /\
    records [("Date", map VTimestamp ts)]
    = map (fun t => [("Date", VTimestamp t)]) ts /\
    List.length ts = 365%nat /\
    NoDup ts /\
    StronglySorted Z.lt ts /\
    NoDup (map civil_from_days ts) /\
    (forall c, In c (map civil_from_days ts) <-> day_of_year 2025 c) /\
    map isoformat (firstn 1 ts) = ["2025-01-01"] /\
    map isoformat (skipn 364 ts) = ["2025-12-31"].
Proof.
  destruct calendar_text as (Hcal & Hlen & Hfirst & Hlast).
  destruct days_2025_checked as [Hin Hcov].
  revert Hcal Hlen Hfirst Hlast Hin Hcov.
  assert (Hs : StronglySorted Z.lt (days_between 20089 20453))
    by apply days_between_sorted.
  revert Hs. generalize (days_between 20089 20453).
  intros ts Hs Hcal Hlen Hfirst Hlast Hin Hcov.
  exists ts.
  split; [exact Hcal |]. split; [reflexivity |].
  split; [rewrite records_single, map_map; reflexivity |].
  split; [exact Hlen |].
  split; [apply sorted_NoDup; exact Hs |].
  split; [exact Hs |].
  split.
  { apply NoDup_map_NoDup_ForallPairs; [| apply sorted_NoDup; exact Hs].
    intros x y Hx Hy E.
    destruct (all_in_2025_sound ts Hin x Hx) as [_ Ex].
    destruct (all_in_2025_sound ts Hin y Hy) as [_ Ey]. congruence. }
  split; [| split; assumption].
  intros c. split.
  - intros H. apply in_map_iff in H. destruct H as (t & <- & Ht).
    apply (all_in_2025_sound ts Hin t Ht).
  - apply covers_2025_sound. exact Hcov.
Qed.

Lemma calendar_covers_2025_witness :
  exists ts,
    calendar = Ok [("Date", map VTimestamp ts)] /\
    In (Civil 2025 12 25) (map civil_from_days ts).
Proof.
  destruct calendar_covers_2025 as (ts & Hcal & _ & _ & _ & _ & _ & _ & Hiff & _).
  exists ts. split; [exact Hcal |].
  apply Hiff. split; reflexivity.
Defined.

(** C3.  For a record whose category is one of the four labels, the
    sampler returns a score of that label's set: Stable in {1, 2, 3}, Peak
    in {3, 4, 5}, Low_Perf in {0, 1, 2}, Crisis in {0, 1, 4, 5}, so never 2
    or 3 for Crisis. *)
Theorem calculate_utility_score_set (row : Row) (label : string) (rs : RandomState) :
  lookup "Category" row = Some (VStr label) ->
  In label categories ->
  exists z rs',
    calculate_utility row rs = (Ok (VInt z), rs') /\
    In z (score_set label) /\
    (label = "Crisis" -> z <> 2 /\ z <> 3).
Proof.
  intros Hrow Hin.
  destruct (calculate_utility_run row label rs Hrow Hin) as (z & E & Hz).
  exists z, (advance rs). split; [exact E |]. split; [exact Hz |].
  intros ->. vm_compute in Hz. intuition lia.
Qed.

Lemma calculate_utility_score_set_witness :
  exists z rs',
    calculate_utility (record (VTimestamp 20089) (VStr "Crisis") VNone)
                      sample_state
    = (Ok (VInt z), rs') /\
    In z (score_set "Crisis") /\
    ("Crisis" = "Crisis" -> z <> 2 /\ z <> 3).
Proof.
  apply (calculate_utility_score_set
           (record (VTimestamp 20089) (VStr "Crisis") VNone) "Crisis"
           sample_state).
  - reflexivity.
  - simpl. tauto.
Defined.

(** C4.  Both the simulated table and the table after the override loop
    have 365 records, each with a category among the four labels and a
    score between 0 and 5. *)
Theorem records_stay_in_range (rs : RandomState) :
  exists df1 df2,
    runs_to rs df1 df2 /\
    len df1 = 365%nat /\ len df2 = 365%nat /\
    Forall record_in_range (records df1) /\
    Forall record_in_range (records df2).
Proof.
  destruct (script_run rs)
    as (C & U & C' & U' & Hrun & (HC & HU & HC' & HU') & HF & R1 & R2).
  exists (table Date_2025 C U), (table Date_2025 C' U').
  split; [exact Hrun |]. split; [reflexivity |]. split; [reflexivity |].
  assert (H1 : Forall record_in_range (rows_of Date_2025 C U)).
  { eapply Forall_impl; [exact record_simulated_in_range |].
    apply rows_of_simulated; [rewrite length_Date_2025; exact HC | exact HF]. }
  split; [rewrite R1; exact H1 |].
  rewrite R2. apply Forall_map. rewrite Forall_forall in H1 |- *.
  intros r0 Hr0. specialize (H1 r0 Hr0).
  apply rows_of_In in Hr0. destruct Hr0 as (d & c & u & -> & _).
  apply overwrite_all_in_range. exact H1.
Qed.

(** C5, as amended.  When the category cell is none of the four labels,
    the sampler raises nothing and draws nothing: it returns [None] and
    leaves the random state as it was. *)
Theorem calculate_utility_unknown (row : Row) (category : value) (rs : RandomState) :
  lookup "Category" row = Some category ->
  (forall label, In label categories -> category <> VStr label) ->
  calculate_utility row rs = (Ok VNone, rs).
Proof.
  intros Hrow Hnot. unfold calculate_utility, bindM, lift, getitem.
  rewrite Hrow.
  assert (H : forall label, In label categories -> is_label category label = false).
  { intros label Hl. destruct category as [t|s|z|]; try reflexivity.
    simpl. apply String.eqb_neq. intros ->. exact (Hnot label Hl eq_refl). }
  rewrite !H by (simpl; tauto). reflexivity.
Qed.

(** C5 as the specification states it fails: for the category [Holiday]
    the sampler returns [None] and raises nothing. *)
Lemma unknown_category_returns_none :
  calculate_utility (record (VTimestamp 20089) (VStr "Holiday") VNone)
                    sample_state
  = (Ok VNone, sample_state) /\
  ~ raises (fst (calculate_utility
                   (record (VTimestamp 20089) (VStr "Holiday") VNone)
                   sample_state)).
Proof.
  split; [reflexivity |]. intros [e He]. discriminate He.
Qed.

Lemma calculate_utility_unknown_witness :
  calculate_utility (record (VTimestamp 20089) (VStr "Holiday") VNone)
                    sample_state
  = (Ok VNone, sample_state).
Proof.
  apply (calculate_utility_unknown
           (record (VTimestamp 20089) (VStr "Holiday") VNone)
           (VStr "Holiday") sample_state).
  - reflexivity.
  - simpl. intros label [<-|[<-|[<-|[<-|[]]]]]; discriminate.
Defined.

(** C6.  The override loop keeps the columns, the number of records and
    the [Date] column of the simulated table, and a record that no entry is
    addressed to is left exactly as the simulation wrote it. *)
Theorem override_frame (to_datetime : string -> option Timestamp)
        (evs : list event) (rs : RandomState) :
  exists df1 rs' df2,
    simulate rs = (Ok df1, rs') /\
    apply_overrides to_datetime evs df1 = Ok df2 /\
    columns df2 = columns df1 /\
    len df2 = len df1 /\
    List.length (records df2) = List.length (records df1) /\
    getitem df2 "Date" = getitem df1 "Date" /\
    Forall2 (fun r1 r2 =>
               Forall (fun ev => addressed to_datetime ev r1 = false) evs ->
               r2 = r1)
            (records df1) (records df2).
Proof.
  destruct (simulate_returns rs) as (df & rs' & Hsim & C & U & -> & HC & HU & HF).
  destruct (apply_overrides_table to_datetime evs Date_2025 C U)
    as (C' & U' & Hov & HC' & HU' & R).
  exists (table Date_2025 C U), rs', (table Date_2025 C' U').
  split; [exact Hsim |]. split; [exact Hov |].
  split; [reflexivity |]. split; [reflexivity |].
  rewrite !records_table by (rewrite length_Date_2025; congruence).
  rewrite R. split; [apply length_map |]. split; [reflexivity |].
  apply Forall2_map_right. apply Forall_forall. intros r0 Hr0 Hno.
  apply rows_of_In in Hr0. destruct Hr0 as (d & c & u & -> & _).
  apply overwrite_all_unaddressed. exact Hno.
Qed.

Lemma override_frame_witness :
  exists df1 rs' df2,
    simulate sample_state = (Ok df1, rs') /\
    apply_overrides parse_iso [("2025-01-01", "Peak", 3)] df1 = Ok df2 /\
    nth_error (records df2) 1 = nth_error (records df1) 1.
Proof.
  destruct (override_frame parse_iso [("2025-01-01", "Peak", 3)] sample_state)
    as (df1 & rs' & df2 & Hsim & Hov & _ & _ & _ & _ & HF).
  exists df1, rs', df2. split; [exact Hsim |]. split; [exact Hov |].
  destruct (simulate_returns sample_state)
    as (df & rs0 & Hsim' & C & U & -> & HC & HU & _).
  rewrite Hsim in Hsim'. injection Hsim' as -> _.
  rewrite records_table in HF |- * by (rewrite length_Date_2025; congruence).
  destruct C as [|c0 [|c1 C]]; try discriminate HC.
  destruct U as [|u0 [|u1 U]]; try discriminate HU.
  change (rows_of Date_2025 (c0 :: c1 :: C) (u0 :: u1 :: U))
    with (record (VTimestamp 20089) c0 u0
          :: record (VTimestamp 20090) c1 u1
          :: rows_of (skipn 2 Date_2025) C U) in HF |- *.
  inversion HF as [|r0 r0' l l' _ Htail]; subst.
  inversion Htail as [|r1 r1' l1 l1' Hkeep _]; subst.
  cbn [nth_error]. f_equal. apply Hkeep.
  constructor; [reflexivity | constructor].
Defined.

(** C7.  An entry whose date text equals no cell of the [Date] column,
    because it names another day or because it is no date at all, leaves
    the table as it is and raises nothing. *)
Theorem unmatched_event_is_noop (to_datetime : string -> option Timestamp)
        (ev : event) (df : DataFrame) (D : Series) :
  lookup "Date" df = Some D ->
  In "Category" (columns df) ->
  In "Utility_Score" (columns df) ->
  Forall (fun d => eq_text to_datetime (event_date ev) d = false) D ->
  apply_event to_datetime ev df = Ok df.
Proof.
  intros HD Hc Hu Hno. destruct ev as [[date cat] score].
  unfold apply_event, getitem. rewrite HD. cbn [Py.bind].
  assert (Hm : Forall (fun m => m = false) (map (eq_text to_datetime date) D)).
  { apply Forall_map. exact Hno. }
  rewrite (loc_set_unmatched _ "Category") by assumption.
  rewrite (loc_set_unmatched _ "Utility_Score") by assumption.
  reflexivity.
Qed.

Lemma unmatched_event_is_noop_witness :
  apply_event parse_iso ("2026-01-01", "Crisis", 5)
    (table [VTimestamp 20089; VTimestamp 20090]
           [VStr "Stable"; VStr "Peak"] [VInt 2; VInt 4])
  = Ok (table [VTimestamp 20089; VTimestamp 20090]
              [VStr "Stable"; VStr "Peak"] [VInt 2; VInt 4]).
Proof.
  apply (unmatched_event_is_noop parse_iso ("2026-01-01", "Crisis", 5)
           (table [VTimestamp 20089; VTimestamp 20090]
                  [VStr "Stable"; VStr "Peak"] [VInt 2; VInt 4])
           [VTimestamp 20089; VTimestamp 20090]).
  - reflexivity.
  - simpl. tauto.
  - simpl. tauto.
  - repeat constructor.
Defined.

Example unparsed_event_is_noop :
  apply_event parse_iso ("someday", "Crisis", 5)
    (table [VTimestamp 20089] [VStr "Stable"] [VInt 2])
  = Ok (table [VTimestamp 20089] [VStr "Stable"] [VInt 2]).
Proof. reflexivity. Qed.

(** C8.  Running the override loop a second time on its own result
    returns that result unchanged. *)
Theorem override_idempotent (to_datetime : string -> option Timestamp)
        (evs : list event) (rs : RandomState) :
  exists df1 rs' df2,
    simulate rs = (Ok df1, rs') /\
    apply_overrides to_datetime evs df1 = Ok df2 /\
    apply_overrides to_datetime evs df2 = Ok df2.
Proof.
  destruct (simulate_returns rs) as (df & rs' & Hsim & C & U & -> & HC & HU & HF).
  destruct (apply_overrides_table to_datetime evs Date_2025 C U)
    as (C1 & U1 & Hov1 & HC1 & HU1 & R1).
  destruct (apply_overrides_table to_datetime evs Date_2025 C1 U1)
    as (C2 & U2 & Hov2 & HC2 & HU2 & R2).
  exists (table Date_2025 C U), rs', (table Date_2025 C1 U1).
  split; [exact Hsim |]. split; [exact Hov1 |].
  rewrite Hov2.
  destruct (rows_of_inj Date_2025 C2 U2 C1 U1) as [-> ->];
    try (rewrite length_Date_2025; congruence); [| reflexivity].
  rewrite R2, R1, map_map. apply map_ext_in. intros r0 Hr0.
  apply rows_of_In in Hr0. destruct Hr0 as (d & c & u & -> & _).
  apply overwrite_all_idempotent.
Qed.

(** C9.  The script ends by writing [utility_analysis_2025.csv]: the
    header line [Date,Category,Utility_Score], then one line per record in
    table order, made of the ISO date, the category and the score, with no
    index cell in front.  Reading the text back yields the triples of the
    table in the same order. *)
Theorem export_round_trip (fs : FileSystem) (rs : RandomState) :
  exists df rs' fs' ts,
    script fs rs = (Ok (df, fs'), rs') /\
    fs' "utility_analysis_2025.csv" = Some (to_csv_text df) /\
    map triple_of (records df) = map Some ts /\
    List.length ts = len df /\ len df = 365%nat /\
    to_csv_text df
    = "Date,Category,Utility_Score" ++ newline
      ++ String.concat "" (map text_of_triple ts) /\
    Forall (fun x => parse_iso (isoformat (fst (fst x))) = Some (fst (fst x))) ts /\
    read_csv (to_csv_text df)
    = Some (["Date"; "Category"; "Utility_Score"], ts).
Proof.
  destruct (final_table rs)
    as (df1 & df2 & ts & (rs' & Hsim & Hov) & Hcols & Hlen365 & Hrec & Hall).
  destruct (csv_of_triples df2 ts Hcols Hrec Hall) as [Htext Hread].
  exists df2, rs', (to_csv df2 export_path fs), ts.
  split; [unfold script, bindM, lift, ret; rewrite Hsim, Hov; reflexivity |].
  split; [reflexivity |].
  split; [rewrite Hrec, map_map; apply map_ext; exact triple_of_record |].
  assert (Hlen : List.length ts = len df2).
  { transitivity (List.length (records df2)).
    - rewrite Hrec, length_map. reflexivity.
    - unfold records. rewrite length_map, length_seq. reflexivity. }
  split; [exact Hlen |]. split; [exact Hlen365 |].
  split; [exact Htext |]. split; [| exact Hread].
  eapply Forall_impl; [| exact Hall].
  intros x Hx. apply reads_back_sound in Hx. destruct x as [[t c] z].
  cbn [fst]. tauto.
Qed.

(** C10.  The override loop checks nothing: the entries (2025-03-11,
    Peak, 1) and (2025-07-20, Low_Perf, 4) are written as they stand, so the
    final table has a Peak record with score 1 and a Low_Perf record with
    score 4, though the sampler never returns 1 for Peak nor 4 for
    Low_Perf. *)
Theorem override_ignores_score_sets (rs : RandomState) :
  exists df1 df2,
    runs_to rs df1 df2 /\
    In (record (VTimestamp 20158) (VStr "Peak") (VInt 1)) (records df2) /\
    In (record (VTimestamp 20289) (VStr "Low_Perf") (VInt 4)) (records df2) /\
    isoformat 20158 = "2025-03-11" /\ isoformat 20289 = "2025-07-20" /\
    In ("2025-03-11", "Peak", 1) actual_events /\
    In ("2025-07-20", "Low_Perf", 4) actual_events /\
    (forall row rs0, lookup "Category" row = Some (VStr "Peak") ->
                     fst (calculate_utility row rs0) <> Ok (VInt 1)) /\
    (forall row rs0, lookup "Category" row = Some (VStr "Low_Perf") ->
                     fst (calculate_utility row rs0) <> Ok (VInt 4)).
Proof.
  destruct (script_run rs)
    as (C & U & C' & U' & Hrun & (HC & HU & HC' & HU') & HF & R1 & R2).
  exists (table Date_2025 C U), (table Date_2025 C' U').
  split; [exact Hrun |].
  assert (Hat : forall t ev,
             20089 <= t <= 20453 ->
             find (fun ev => eq_text parse_iso (event_date ev) (VTimestamp t))
                  (rev actual_events) = Some ev ->
             In (record (VTimestamp t) (VStr (event_category ev))
                        (VInt (event_score ev)))
                (records (table Date_2025 C' U'))).
  { intros t ev Ht E.
    destruct (rows_of_cover Date_2025 C U (VTimestamp t)) as (c & u & Hin);
      [rewrite length_Date_2025; assumption ..| apply Date_2025_In; exact Ht |].
    rewrite R2. apply in_map_iff. exists (record (VTimestamp t) c u).
    split; [| exact Hin].
    rewrite overwrite_all_record, last_addressed_record, E. reflexivity. }
  split; [apply (Hat 20158 ("2025-03-11", "Peak", 1));
          [lia | vm_compute; reflexivity] |].
  split; [apply (Hat 20289 ("2025-07-20", "Low_Perf", 4));
          [lia | vm_compute; reflexivity] |].
  split; [reflexivity |]. split; [reflexivity |].
  split; [simpl; tauto |]. split; [simpl; tauto |].
  split; intros row rs0 Hrow E.
  - destruct (calculate_utility_run row "Peak" rs0 Hrow) as (z & Ez & Hz);
      [simpl; tauto |].
    rewrite Ez in E. cbn [fst] in E. injection E as ->.
    vm_compute in Hz. intuition discriminate.
  - destruct (calculate_utility_run row "Low_Perf" rs0 Hrow) as (z & Ez & Hz);
      [simpl; tauto |].
    rewrite Ez in E. cbn [fst] in E. injection E as ->.
    vm_compute in Hz. intuition discriminate.
Qed.

Lemma override_ignores_score_sets_witness :
  fst (calculate_utility (record (VTimestamp 20158) (VStr "Peak") VNone)
                         sample_state) <> Ok (VInt 1) /\
  fst (calculate_utility (record (VTimestamp 20289) (VStr "Low_Perf") VNone)
                         sample_state) <> Ok (VInt 4).
Proof.
  destruct (override_ignores_score_sets sample_state)
    as (df1 & df2 & _ & _ & _ & _ & _ & _ & _ & Hpeak & Hlow).
  split; [apply Hpeak | apply Hlow]; reflexivity.
Defined.

(* ===================================================================== *)
(** ** Further properties of the script *)
(* ===================================================================== *)

(** *** The utility sampler *)

Lemma calculate_utility_missing_category (row : Row) (rs : RandomState) :
  lookup "Category" row = None ->
  calculate_utility row rs = (Raise (KeyError "Category"), rs).
Proof.
  intros H. unfold calculate_utility, bindM, lift, getitem. rewrite H.
  reflexivity.
Qed.

Lemma lookup_row_at name (df : DataFrame) i :
  lookup name df = None -> lookup name (row_at df i) = None.
Proof.
  unfold row_at. induction df as [|[k c] df IH]; simpl; [reflexivity |].
  destruct (String.eqb k name); [discriminate | exact IH].
Qed.

(** X1.  Scoring a table that has rows but no [Category] column raises
    [KeyError] for that key on the first row: no score column is added and
    no random number is drawn. *)
Theorem assign_scores_before_categories (df : DataFrame) (rs : RandomState) :
  lookup "Category" df = None ->
  (0 < len df)%nat ->
  assign_scores df rs = (Raise (KeyError "Category"), rs).
Proof.
  intros Hcol Hlen. unfold assign_scores, apply_rows.
  destruct (len df) as [|n]; [lia |].
  cbn [seq mapM]. unfold bindM at 1 2.
  rewrite calculate_utility_missing_category
    by (apply lookup_row_at; exact Hcol).
  reflexivity.
Qed.

Lemma assign_scores_before_categories_witness :
  assign_scores [("Date", [VTimestamp 20089; VTimestamp 20090])] sample_state
  = (Raise (KeyError "Category"), sample_state).
Proof.
  apply (assign_scores_before_categories
           [("Date", [VTimestamp 20089; VTimestamp 20090])] sample_state).
  - reflexivity.
  - simpl. lia.
Defined.

(** X2.  The sampler reads nothing of a row but its [Category] cell: two
    rows with the same category cell get the same score and leave the same
    random state, whatever their other cells. *)
Theorem calculate_utility_reads_category_only (row row' : Row) (rs : RandomState) :
  lookup "Category" row = lookup "Category" row' ->
  calculate_utility row rs = calculate_utility row' rs.
Proof.
  intros H. unfold calculate_utility, bindM, lift, getitem. rewrite H.
  reflexivity.
Qed.

Lemma calculate_utility_reads_category_only_witness :
  calculate_utility (record (VTimestamp 20089) (VStr "Peak") VNone) sample_state
  = calculate_utility [("Category", VStr "Peak"); ("Date", VTimestamp 20300)]
                      sample_state.
Proof.
  apply (calculate_utility_reads_category_only
           (record (VTimestamp 20089) (VStr "Peak") VNone)
           [("Category", VStr "Peak"); ("Date", VTimestamp 20300)]
           sample_state).
  reflexivity.
Defined.

Lemma draw_for_returns row label z :
  lookup "Category" row = Some (VStr label) ->
  In label categories -> In z (score_set label) ->
  fst (calculate_utility row (constant_state (draw_for label z)))
  = Ok (VInt z).
Proof.
  intros Hrow. unfold calculate_utility, bindM, lift, getitem. rewrite Hrow.
  simpl. intros [<-|[<-|[<-|[<-|[]]]]] Hz; vm_compute in Hz;
    repeat (destruct Hz as [<-|Hz]; [vm_compute; reflexivity |]);
    destruct Hz.
Qed.

(** X3.  Every score of a label's set can be drawn: for each of the four
    labels and each score of its set there is a random state from which the
    sampler returns that score. *)
Theorem score_set_attained (row : Row) (label : string) (z : Z) :
  lookup "Category" row = Some (VStr label) ->
  In label categories ->
  In z (score_set label) ->
  exists rs, fst (calculate_utility row rs) = Ok (VInt z).
Proof.
  intros Hrow Hl Hz. exists (constant_state (draw_for label z)).
  apply draw_for_returns; assumption.
Qed.

Lemma score_set_attained_witness :
  exists rs,
    fst (calculate_utility (record (VTimestamp 20089) (VStr "Crisis") VNone) rs)
    = Ok (VInt 4).
Proof.
  apply (score_set_attained
           (record (VTimestamp 20089) (VStr "Crisis") VNone) "Crisis" 4).
  - reflexivity.
  - simpl. tauto.
  - simpl. tauto.
Defined.

(** *** The category sampler *)

Lemma draw_for_category_returns label :
  In label categories ->
  first_category (constant_state (draw_for_category label)) = Some (VStr label).
Proof.
  simpl. intros [<-|[<-|[<-|[<-|[]]]]]; vm_compute; reflexivity.
Qed.

(** X4.  Every label can be drawn: for each of the four labels there is a
    random state from which the category sampler gives that label to the
    first day of the calendar. *)
Theorem category_attained (label : string) :
  In label categories ->
  exists rs df rs',
    assign_categories [("Date", Date_2025)] rs = (Ok df, rs') /\
    lookup "Category" (row_at df 0) = Some (VStr label).
Proof.
  intros Hl. exists (constant_state (draw_for_category label)).
  assert (H := draw_for_category_returns label Hl). unfold first_category in H.
  destruct (assign_categories [("Date", Date_2025)]
              (constant_state (draw_for_category label))) as [[df|e] rs'];
    cbn [fst] in H; [| discriminate].
  exists df, rs'. split; [reflexivity | exact H].
Qed.

Lemma category_attained_witness :
  exists rs df rs',
    assign_categories [("Date", Date_2025)] rs = (Ok df, rs') /\
    lookup "Category" (row_at df 0) = Some (VStr "Crisis").
Proof.
  apply (category_attained "Crisis"). simpl. tauto.
Defined.

(** *** The override loop *)

Lemma filter_timestamp_once td text (ts : list Timestamp) :
  NoDup ts ->
  (List.length (filter (eq_text td text) (map VTimestamp ts)) <= 1)%nat.
Proof.
  unfold eq_text. destruct (td text) as [t'|].
  - induction 1 as [|t ts Hnotin _ IH]; simpl; [lia |].
    destruct (Z.eqb_spec t t') as [->|_]; [| exact IH].
    assert (E : filter (fun v => match v with
                                 | VTimestamp t => t =? t'
                                 | VStr s => String.eqb s text
                                 | _ => false
                                 end) (map VTimestamp ts) = []).
    { clear IH. induction ts as [|x ts IHts]; [reflexivity |].
      simpl. destruct (Z.eqb_spec x t') as [->|_].
      - exfalso. apply Hnotin. left. reflexivity.
      - apply IHts. intros H. apply Hnotin. right. exact H. }
    rewrite E. simpl. lia.
  - intros _. induction ts as [|t ts IH]; simpl; [lia | exact IH].
Qed.

Lemma filter_rows_of (q : value -> bool) (p : Row -> bool) D : forall C U,
  (forall d c u, p (record d c u) = q d) ->
  List.length C = List.length D -> List.length U = List.length D ->
  map (fun r => lookup "Date" r) (filter p (rows_of D C U))
  = map Some (filter q D).
Proof.
  induction D as [|d D IH]; intros [|c C] [|u U] Hp HC HU;
    try discriminate; [reflexivity |].
  simpl in HC, HU. injection HC as HC. injection HU as HU.
  cbn [rows_of filter]. rewrite Hp.
  destruct (q d); cbn [map]; rewrite (IH C U Hp HC HU); reflexivity.
Qed.

Lemma length_filter_rows_of (q : value -> bool) (p : Row -> bool) D C U :
  (forall d c u, p (record d c u) = q d) ->
  List.length C = List.length D -> List.length U = List.length D ->
  List.length (filter p (rows_of D C U)) = List.length (filter q D).
Proof.
  intros Hp HC HU.
  assert (H := f_equal (@List.length _) (filter_rows_of q p D C U Hp HC HU)).
  rewrite !length_map in H. exact H.
Qed.

(** X5.  An entry changes at most one record: whatever its date text and
    however that text converts, at most one record of the simulated table
    is addressed by it, since the calendar holds every day once. *)
Theorem entry_addresses_one_record (to_datetime : string -> option Timestamp)
        (ev : event) (rs : RandomState) :
  exists df1 rs',
    simulate rs = (Ok df1, rs') /\
    (List.length (filter (addressed to_datetime ev) (records df1)) <= 1)%nat.
Proof.
  destruct (simulate_returns rs) as (df & rs' & Hsim & C & U & -> & HC & HU & _).
  exists (table Date_2025 C U), rs'. split; [exact Hsim |].
  rewrite records_table by (rewrite length_Date_2025; congruence).
  rewrite (length_filter_rows_of
             (eq_text to_datetime (event_date ev))
             (addressed to_datetime ev))
    by (try (rewrite length_Date_2025; congruence); reflexivity).
  apply filter_timestamp_once. apply sorted_NoDup, days_between_sorted.
Qed.

Lemma where_set_commute v1 v2 (f1 f2 : value -> bool) D : forall s,
  Forall (fun d => f1 d && f2 d = false) D ->
  where_set (map f2 D) v2 (where_set (map f1 D) v1 s)
  = where_set (map f1 D) v1 (where_set (map f2 D) v2 s).
Proof.
  induction D as [|d D IH]; intros [|x s] H; try reflexivity.
  inversion H as [|d' D' Hd HD]; subst. cbn [map where_set].
  rewrite (IH s HD).
  destruct (f1 d), (f2 d); try reflexivity. discriminate Hd.
Qed.

Lemma eq_text_disjoint td text1 text2 t :
  td text1 <> td text2 ->
  eq_text td text1 (VTimestamp t) && eq_text td text2 (VTimestamp t) = false.
Proof.
  intros Hne. cbn [eq_text].
  destruct (td text1) as [t1|], (td text2) as [t2|];
    try reflexivity; try apply andb_false_r.
  destruct (Z.eqb_spec t t1) as [->|_]; [| reflexivity].
  destruct (Z.eqb_spec t1 t2) as [->|_]; [| reflexivity].
  exfalso. apply Hne. reflexivity.
Qed.

(** X6.  Entries for different days commute: when the date texts of two
    entries convert to different results, applying them to the simulated
    table in either order gives the same table. *)
Theorem entries_on_different_days_commute
        (to_datetime : string -> option Timestamp)
        (e1 e2 : event) (rs : RandomState) :
  to_datetime (event_date e1) <> to_datetime (event_date e2) ->
  exists df1 rs' df2,
    simulate rs = (Ok df1, rs') /\
    apply_overrides to_datetime [e1; e2] df1 = Ok df2 /\
    apply_overrides to_datetime [e2; e1] df1 = Ok df2.
Proof.
  intros Hne.
  destruct (simulate_returns rs) as (df & rs' & Hsim & C & U & -> & HC & HU & _).
  destruct e1 as [[d1 c1] z1], e2 as [[d2 c2] z2].
  cbn [event_date fst] in Hne.
  exists (table Date_2025 C U), rs'. eexists.
  split; [exact Hsim |]. split; [reflexivity |].
  assert (Hdis : Forall (fun d => eq_text to_datetime d1 d
                                  && eq_text to_datetime d2 d = false)
                        Date_2025).
  { unfold Date_2025. apply Forall_map, Forall_forall. intros t _.
    apply eq_text_disjoint. exact Hne. }
  cbn [apply_overrides apply_event getitem lookup table String.eqb
       Ascii.eqb Bool.eqb Py.bind loc_set].
  rewrite (where_set_commute _ _ _ _ Date_2025 C Hdis),
          (where_set_commute _ _ _ _ Date_2025 U Hdis).
  reflexivity.
Qed.

Lemma entries_on_different_days_commute_witness :
  exists df1 rs' df2,
    simulate sample_state = (Ok df1, rs') /\
    apply_overrides parse_iso
      [("2025-01-01", "Peak", 3); ("2025-01-09", "Crisis", 1)] df1 = Ok df2 /\
    apply_overrides parse_iso
      [("2025-01-09", "Crisis", 1); ("2025-01-01", "Peak", 3)] df1 = Ok df2.
Proof.
  apply (entries_on_different_days_commute parse_iso
           ("2025-01-01", "Peak", 3) ("2025-01-09", "Crisis", 1) sample_state).
  vm_compute. discriminate.
Defined.

(** X7.  Running the loop over two lists joined end to end is running it
    over the first and then over the second, on any table; an error of the
    first run is the error of the whole. *)
Theorem apply_overrides_app (to_datetime : string -> option Timestamp)
        (evs1 evs2 : list event) (df : DataFrame) :
  apply_overrides to_datetime (evs1 ++ evs2)%list df
  = Py.bind (apply_overrides to_datetime evs1 df)
            (apply_overrides to_datetime evs2).
Proof.
  revert df. induction evs1 as [|ev evs1 IH]; intros df; [reflexivity |].
  cbn [app apply_overrides].
  destruct (apply_event to_datetime ev df) as [df'|e]; cbn [Py.bind];
    [apply IH | reflexivity].
Qed.

(** X8.  On a table without a [Date] column the loop raises [KeyError] for
    that key at its first entry, whatever the entries are. *)
Theorem apply_overrides_missing_date (to_datetime : string -> option Timestamp)
        (ev : event) (evs : list event) (df : DataFrame) :
  lookup "Date" df = None ->
  apply_overrides to_datetime (ev :: evs) df = Raise (KeyError "Date").
Proof.
  intros H. destruct ev as [[date cat] score].
  cbn [apply_overrides]. unfold apply_event, getitem. rewrite H. reflexivity.
Qed.

Lemma apply_overrides_missing_date_witness :
  apply_overrides parse_iso
    (("2025-01-01", "Peak", 3) :: [("2025-01-09", "Crisis", 1)])
    [("Category", [VStr "Stable"]); ("Utility_Score", [VInt 2])]
  = Raise (KeyError "Date").
Proof.
  apply (apply_overrides_missing_date parse_iso
           ("2025-01-01", "Peak", 3) [("2025-01-09", "Crisis", 1)]
           [("Category", [VStr "Stable"]); ("Utility_Score", [VInt 2])]).
  reflexivity.
Defined.

Lemma addressed_by_some_overwrite_all td evs evs' d c u :
  addressed_by_some td evs' (overwrite_all td evs (record d c u))
  = existsb (fun ev => eq_text td (event_date ev) d) evs'.
Proof.
  unfold addressed_by_some. induction evs' as [|ev evs' IH]; [reflexivity |].
  cbn [existsb]. rewrite addressed_overwrite_all, IH. reflexivity.
Qed.

Lemma overridden_days : 
  List.length
    (filter (fun d => existsb (fun ev => eq_text parse_iso (event_date ev) d)
                              actual_events) Date_2025) = 50%nat.
Proof. vm_compute. reflexivity. Qed.

(** X9.  The simulation writes consistent records, and the override loop
    leaves them so where it does not write: every record of the simulated
    table has a score of its category's set, every record of the final
    table is addressed by an entry or still has, and exactly 50 of the
    365 final records are addressed by an entry (the 51 entries name 50
    different days). *)
Theorem unaddressed_records_stay_simulated (rs : RandomState) :
  exists df1 df2,
    runs_to rs df1 df2 /\
    Forall record_simulated (records df1) /\
    Forall (fun r => addressed_by_some parse_iso actual_events r = true \/
                     record_simulated r)
           (records df2) /\
    List.length (filter (addressed_by_some parse_iso actual_events)
                        (records df2)) = 50%nat.
Proof.
  destruct (script_run rs)
    as (C & U & C' & U' & Hrun & (HC & HU & HC' & HU') & HF & R1 & R2).
  exists (table Date_2025 C U), (table Date_2025 C' U').
  split; [exact Hrun |].
  assert (H1 : Forall record_simulated (rows_of Date_2025 C U)).
  { apply rows_of_simulated; [rewrite length_Date_2025; exact HC | exact HF]. }
  split; [rewrite R1; exact H1 |]. split.
  - rewrite R2. apply Forall_map. rewrite Forall_forall in H1 |- *.
    intros r0 Hr0. specialize (H1 r0 Hr0).
    apply rows_of_In in Hr0. destruct Hr0 as (d & c & u & -> & _).
    destruct (addressed_by_some parse_iso actual_events
                (overwrite_all parse_iso actual_events (record d c u)))
      eqn:Hno; [left; reflexivity | right].
    rewrite overwrite_all_unaddressed; [exact H1 |].
    rewrite addressed_by_some_overwrite_all in Hno.
    apply Forall_forall. intros ev Hev.
    rewrite addressed_record.
    destruct (eq_text parse_iso (event_date ev) d) eqn:E; [| reflexivity].
    rewrite <- Hno. symmetry. apply existsb_exists. exists ev. auto.
  - rewrite R2.
    transitivity
      (List.length
         (filter (fun r => addressed_by_some parse_iso actual_events
                             (overwrite_all parse_iso actual_events r))
                 (rows_of Date_2025 C U))).
    + generalize (rows_of Date_2025 C U). intros l.
      induction l as [|r l IH]; [reflexivity |].
      cbn [map filter].
      destruct (addressed_by_some _ _ (overwrite_all _ _ r));
        cbn [List.length]; rewrite IH; reflexivity.
    + rewrite (length_filter_rows_of
                 (fun d => existsb (fun ev => eq_text parse_iso (event_date ev) d)
                                   actual_events))
        by (try (rewrite length_Date_2025; congruence);
            intros; apply addressed_by_some_overwrite_all).
      exact overridden_days.
Qed.

(** *** The summary *)

Lemma string_lt_trans a b c : string_lt a b -> string_lt b c -> string_lt a c.
Proof.
  unfold string_lt. intros H1 H2.
  apply OrderedTypeEx.String_as_OT.cmp_lt.
  apply OrderedTypeEx.String_as_OT.cmp_lt in H1, H2.
  eapply OrderedTypeEx.String_as_OT.lt_trans; eassumption.
Qed.

Lemma string_lt_irrefl a : ~ string_lt a a.
Proof.
  unfold string_lt. intros H.
  assert (E := String.compare_antisym a a). rewrite H in E. discriminate E.
Qed.

Lemma insert_key_In k x ks : In x (insert_key k ks) <-> x = k \/ In x ks.
Proof.
  induction ks as [|y ks IH]; simpl; [intuition |].
  destruct (String.compare k y) eqn:E; simpl.
  - apply String.compare_eq_iff in E. subst y. intuition.
  - intuition.
  - rewrite IH. intuition.
Qed.

Lemma insert_key_sorted k ks :
  StronglySorted string_lt ks -> StronglySorted string_lt (insert_key k ks).
Proof.
  induction 1 as [|y ks Hs IH Hall]; simpl; [repeat constructor |].
  destruct (String.compare k y) eqn:E.
  - constructor; assumption.
  - constructor; [constructor; assumption |].
    constructor; [exact E |].
    eapply Forall_impl; [| exact Hall].
    intros z Hz. eapply string_lt_trans; [exact E | exact Hz].
  - constructor; [exact IH |].
    apply Forall_forall. intros z Hz. apply insert_key_In in Hz.
    destruct Hz as [->|Hz].
    + unfold string_lt. rewrite String.compare_antisym, E. reflexivity.
    + rewrite Forall_forall in Hall. apply Hall. exact Hz.
Qed.

Lemma group_keys_In k by_ : In k (group_keys by_) <-> In (VStr k) by_.
Proof.
  induction by_ as [|v by_ IH]; simpl; [tauto |].
  destruct v as [t|s|z|]; try rewrite insert_key_In; rewrite ?IH;
    intuition (try discriminate; try congruence).
Qed.

Lemma group_keys_sorted by_ : StronglySorted string_lt (group_keys by_).
Proof.
  induction by_ as [|v by_ IH]; simpl; [constructor |].
  destruct v; try exact IH. apply insert_key_sorted. exact IH.
Qed.

Lemma sorted_Forall_notin (l : list string) a :
  Forall (string_lt a) l -> ~ In a l.
Proof.
  intros H Hin. rewrite Forall_forall in H.
  exact (string_lt_irrefl a (H a Hin)).
Qed.

Lemma sorted_same_elements (l1 : list string) : forall l2,
  StronglySorted string_lt l1 -> StronglySorted string_lt l2 ->
  (forall x, In x l1 <-> In x l2) -> l1 = l2.
Proof.
  induction l1 as [|a l1 IH]; intros l2 H1 H2 Hiff.
  - destruct l2 as [|b l2]; [reflexivity |].
    exfalso. apply (Hiff b). left. reflexivity.
  - destruct l2 as [|b l2]; [exfalso; apply (Hiff a); left; reflexivity |].
    apply StronglySorted_inv in H1, H2.
    destruct H1 as [S1 F1], H2 as [S2 F2].
    assert (Hab : a = b).
    { assert (Ha : In a (b :: l2)) by (apply Hiff; left; reflexivity).
      assert (Hb : In b (a :: l1)) by (apply Hiff; left; reflexivity).
      destruct Ha as [Ha|Ha]; [congruence |].
      destruct Hb as [Hb|Hb]; [congruence |].
      rewrite Forall_forall in F1, F2.
      exfalso. apply (string_lt_irrefl a).
      eapply string_lt_trans; [apply F1; exact Hb | apply F2; exact Ha]. }
    subst b. f_equal. apply IH; try assumption.
    intros x. split; intros Hx.
    + assert (Hx' : In x (a :: l2)) by (apply Hiff; right; exact Hx).
      destruct Hx' as [<-|Hx']; [| exact Hx'].
      exfalso. exact (sorted_Forall_notin l1 a F1 Hx).
    + assert (Hx' : In x (a :: l1)) by (apply Hiff; right; exact Hx).
      destruct Hx' as [<-|Hx']; [| exact Hx'].
      exfalso. exact (sorted_Forall_notin l2 a F2 Hx).
Qed.

Lemma rows_of_triples D : forall C U ts,
  List.length C = List.length D -> List.length U = List.length D ->
  rows_of D C U = map record_of_triple ts ->
  C = map category_of ts /\ U = map score_of ts.
Proof.
  induction D as [|d D IH]; intros [|c C] [|u U] ts HC HU E;
    try discriminate.
  - destruct ts; [split; reflexivity | discriminate].
  - destruct ts as [|[[t k] z] ts]; [discriminate |].
    simpl in HC, HU. injection HC as HC. injection HU as HU.
    cbn [rows_of map record_of_triple record] in E.
    injection E as _ Ec Eu E.
    destruct (IH C U ts HC HU E) as [-> ->]. subst. split; reflexivity.
Qed.

Lemma entry_decides C U t ev :
  List.length C = 365%nat -> List.length U = 365%nat ->
  20089 <= t <= 20453 ->
  find (fun ev => eq_text parse_iso (event_date ev) (VTimestamp t))
       (rev actual_events) = Some ev ->
  In (record (VTimestamp t) (VStr (event_category ev)) (VInt (event_score ev)))
     (map (overwrite_all parse_iso actual_events) (rows_of Date_2025 C U)).
Proof.
  intros HC HU Ht E.
  destruct (rows_of_cover Date_2025 C U (VTimestamp t)) as (c & u & Hin);
    [rewrite length_Date_2025; assumption ..| apply Date_2025_In; exact Ht |].
  apply in_map_iff. exists (record (VTimestamp t) c u).
  split; [| exact Hin].
  rewrite overwrite_all_record, last_addressed_record, E. reflexivity.
Qed.

(** The final table, column by column. *)
Lemma final_columns rs :
  exists df1 ts,
    runs_to rs df1 (table Date_2025 (map category_of ts) (map score_of ts)) /\
    List.length ts = 365%nat /\
    Forall (fun x => In x final_triples) ts /\
    In (VStr "Crisis") (map category_of ts) /\
    In (VStr "Low_Perf") (map category_of ts) /\
    In (VStr "Peak") (map category_of ts).
Proof.
  destruct (script_run rs)
    as (C & U & C' & U' & Hrun & (HC & HU & HC' & HU') & HF & R1 & R2).
  assert (H1 : Forall record_in_range (rows_of Date_2025 C U)).
  { eapply Forall_impl; [exact record_simulated_in_range |].
    apply rows_of_simulated; [rewrite length_Date_2025; exact HC | exact HF]. }
  destruct (triples_of_records (records (table Date_2025 C' U')))
    as (ts & Hts & Hall).
  { rewrite R2. apply Forall_map. rewrite Forall_forall in H1 |- *.
    intros r0 Hr0. specialize (H1 r0 Hr0).
    apply rows_of_In in Hr0. destruct Hr0 as (d & c & u & -> & Hd & _).
    apply Date_2025_inv in Hd. destruct Hd as (t & -> & Ht).
    apply overwrite_all_in_range in H1.
    rewrite overwrite_all_record in H1 |- *.
    destruct (last_addressed _ _ _); apply in_range_triple; assumption. }
  assert (Hrows : rows_of Date_2025 C' U' = map record_of_triple ts).
  { rewrite <- Hts. symmetry. apply records_table;
      rewrite length_Date_2025; assumption. }
  destruct (rows_of_triples Date_2025 C' U' ts) as [EC EU];
    [rewrite length_Date_2025; assumption .. | exact Hrows |].
  assert (Hlen : List.length ts = 365%nat).
  { rewrite <- HC', EC, length_map. reflexivity. }
  assert (Hhas : forall t ev,
             20089 <= t <= 20453 ->
             find (fun ev => eq_text parse_iso (event_date ev) (VTimestamp t))
                  (rev actual_events) = Some ev ->
             In (VStr (event_category ev)) (map category_of ts)).
  { intros t ev Ht E.
    assert (Hin := entry_decides C U t ev HC HU Ht E).
    rewrite <- R2, Hts in Hin. apply in_map_iff in Hin.
    destruct Hin as ([[t' k] z] & Ex & Hx).
    injection Ex as _ Ek _. apply in_map_iff.
    exists (t', k, z). split; [| exact Hx].
    unfold category_of. cbn [fst snd]. rewrite Ek. reflexivity. }
  exists (table Date_2025 C U), ts. subst C' U'.
  split; [exact Hrun |]. split; [exact Hlen |]. split; [exact Hall |].
  split; [| split].
  - apply (Hhas 20097 ("2025-01-09", "Crisis", 1)); [lia | vm_compute; reflexivity].
  - apply (Hhas 20099 ("2025-01-11", "Low_Perf", 1)); [lia | vm_compute; reflexivity].
  - apply (Hhas 20089 ("2025-01-01", "Peak", 3)); [lia | vm_compute; reflexivity].
Qed.

Lemma final_triple_category x :
  In x final_triples -> In (snd (fst x)) categories /\ 0 <= snd x <= 5.
Proof.
  destruct x as [[t k] z]. unfold final_triples. intros H.
  apply in_prod_iff in H. destruct H as [H Hz].
  apply in_prod_iff in H. destruct H as [_ Hk].
  split; [exact Hk |]. cbn [snd].
  unfold zrange in Hz. apply in_map_iff in Hz.
  destruct Hz as (i & <- & Hi). apply in_seq in Hi. lia.
Qed.

Lemma rows_of_cover_category D : forall C U c,
  List.length C = List.length D -> List.length U = List.length D ->
  In c C -> exists d u, In (record d c u) (rows_of D C U).
Proof.
  induction D as [|d0 D IH]; intros [|c0 C] [|u0 U] c HC HU Hc;
    try discriminate; [destruct Hc |].
  simpl in HC, HU. injection HC as HC. injection HU as HU.
  destruct Hc as [<-|Hc].
  - exists d0, u0. left. reflexivity.
  - destruct (IH C U c HC HU Hc) as (d & u & H). exists d, u. right. exact H.
Qed.

(** X10.  The summary of the final table has its rows in ascending order
    of label, and always one for Crisis, Low_Perf and Peak, which the
    override entries put into the table.  The row of Stable is there
    exactly when a Stable record is left: with such a record the keys are
    Crisis, Low_Perf, Peak, Stable, and without one they are Crisis,
    Low_Perf, Peak. *)
Theorem summary_rows (rs : RandomState) :
  exists df1 df2 s,
    runs_to rs df1 df2 /\
    summary df2 = Ok s /\
    (((exists r, In r (records df2) /\
                 lookup "Category" r = Some (VStr "Stable")) /\
      map fst s = ["Crisis"; "Low_Perf"; "Peak"; "Stable"]) \/
     ((forall r, In r (records df2) ->
                 lookup "Category" r <> Some (VStr "Stable")) /\
      map fst s = ["Crisis"; "Low_Perf"; "Peak"])).
Proof.
  destruct (final_columns rs)
    as (df1 & ts & Hrun & Hlen & Hall & HCr & HLo & HPe).
  exists df1, (table Date_2025 (map category_of ts) (map score_of ts)).
  eexists. split; [exact Hrun |]. split; [reflexivity |].
  rewrite !map_map. cbn [fst]. rewrite map_id.
  assert (HlenC : List.length (map category_of ts) = List.length Date_2025)
    by (rewrite length_map, length_Date_2025; exact Hlen).
  assert (HlenU : List.length (map score_of ts) = List.length Date_2025)
    by (rewrite length_map, length_Date_2025; exact Hlen).
  rewrite (records_table _ _ _ HlenC HlenU).
  assert (Hs := group_keys_sorted (map category_of ts)).
  assert (Hin : forall k, In k (group_keys (map category_of ts)) ->
                          In k categories).
  { intros k Hk. apply group_keys_In, in_map_iff in Hk.
    destruct Hk as (x & Ex & Hx). rewrite Forall_forall in Hall.
    injection Ex as <-. apply (final_triple_category x (Hall x Hx)). }
  apply group_keys_In in HCr, HLo, HPe.
  destruct (in_dec string_dec "Stable" (group_keys (map category_of ts)))
    as [HSt|HSt]; [left | right]; split.
  - assert (HC := HSt). apply group_keys_In in HC.
    destruct (rows_of_cover_category Date_2025 _ _ _ HlenC HlenU HC)
      as (d & u & Hr).
    exists (record d (VStr "Stable") u). split; [exact Hr | reflexivity].
  - apply sorted_same_elements; [exact Hs | repeat constructor |].
    intros k; split; intros Hk.
    + apply Hin in Hk. simpl in Hk |- *. tauto.
    + simpl in Hk. destruct Hk as [<-|[<-|[<-|[<-|[]]]]]; assumption.
  - intros r Hr Hcat. apply HSt.
    apply rows_of_In in Hr. destruct Hr as (d & c & u & -> & _ & Hc & _).
    cbn in Hcat. injection Hcat as ->.
    apply group_keys_In. exact Hc.
  - apply sorted_same_elements; [exact Hs | repeat constructor |].
    intros k; split; intros Hk.
    + assert (Hk' := Hin k Hk). simpl in Hk' |- *.
      destruct Hk' as [<-|Hk']; [contradiction | tauto].
    + simpl in Hk. destruct Hk as [<-|[<-|[<-|[]]]]; assumption.
Qed.

Lemma group_of_triples k ts :
  group_of (map category_of ts) (map score_of ts) k
  = map score_of (with_category k ts).
Proof.
  unfold group_of, with_category.
  induction ts as [|x ts IH]; [reflexivity |].
  cbn [map combine filter fst is_label category_of].
  destruct (String.eqb (snd (fst x)) k); cbn [map snd]; rewrite IH;
    reflexivity.
Qed.

Lemma numbers_scores l : numbers (map score_of l) = map snd l.
Proof.
  unfold numbers. induction l as [|x l IH]; [reflexivity |].
  cbn [map flat_map score_of app]. rewrite IH. reflexivity.
Qed.

Lemma describe_scores l :
  describe (map score_of l)
  = DescribeRow (List.length l)
                match List.length l with
                | O => None
                | S n => Some (Zsum (map snd l) # Pos.of_succ_nat n)
                end.
Proof.
  unfold describe. rewrite numbers_scores, length_map. reflexivity.
Qed.

Lemma sorted_strings_NoDup (l : list string) :
  StronglySorted string_lt l -> NoDup l.
Proof.
  induction 1 as [|a l _ IH Hall]; constructor; [| exact IH].
  apply sorted_Forall_notin. exact Hall.
Qed.

Lemma one_key_matches c ks :
  NoDup ks -> In c ks ->
  fold_right (fun k n => ((if String.eqb c k then 1 else 0) + n)%nat) O ks
  = 1%nat.
Proof.
  induction 1 as [|k ks Hnotin _ IH]; intros Hin; [destruct Hin |].
  cbn [fold_right]. destruct (String.eqb_spec c k) as [->|Hne].
  - assert (E : fold_right
                  (fun k0 n => ((if String.eqb k k0 then 1 else 0) + n)%nat)
                  O ks = O).
    { clear IH Hin. induction ks as [|y ks IHks]; [reflexivity |].
      cbn [fold_right]. destruct (String.eqb_spec k y) as [->|_].
      - exfalso. apply Hnotin. left. reflexivity.
      - apply IHks. intros H. apply Hnotin. right. exact H. }
    rewrite E. reflexivity.
  - destruct Hin as [->|Hin]; [contradiction |]. rewrite (IH Hin). reflexivity.
Qed.

Lemma groups_partition ks ts :
  NoDup ks ->
  Forall (fun x => In (snd (fst x)) ks) ts ->
  fold_right (fun k n => (List.length (with_category k ts) + n)%nat) O ks
  = List.length ts.
Proof.
  intros Hnd. induction 1 as [|x ts Hx _ IH].
  - induction ks as [|k ks IHks]; [reflexivity |].
    cbn [fold_right with_category filter List.length].
    apply IHks. inversion Hnd; assumption.
  - assert (E : fold_right
                  (fun k n => (List.length (with_category k (x :: ts)) + n)%nat)
                  O ks
                = (fold_right
                     (fun k n =>
                        ((if String.eqb (snd (fst x)) k then 1 else 0) + n)%nat)
                     O ks
                   + fold_right
                       (fun k n => (List.length (with_category k ts) + n)%nat)
                       O ks)%nat).
    { clear. induction ks as [|k ks IHks]; [reflexivity |].
      cbn [fold_right]. rewrite IHks.
      unfold with_category at 1. cbn [filter].
      destruct (String.eqb (snd (fst x)) k); cbn [List.length];
        fold (with_category k ts); lia. }
    rewrite E, IH, (one_key_matches _ ks Hnd Hx). reflexivity.
Qed.

Lemma Zsum_bounds (l : list (Timestamp * string * Z)) :
  Forall (fun x => 0 <= snd x <= 5) l ->
  0 <= Zsum (map snd l) <= 5 * Z.of_nat (List.length l).
Proof.
  induction 1 as [|x l Hx _ IH]; simpl; [lia |].
  unfold Zsum in *. cbn [fold_right]. lia.
Qed.

(** X11.  In the summary of the final table the counts add up to the 365
    records, every row counts at least one record, and every mean is
    defined and lies between 0 and 5. *)
Theorem summary_counts_and_means (rs : RandomState) :
  exists df1 df2 s,
    runs_to rs df1 df2 /\
    summary df2 = Ok s /\
    total_count s = 365%nat /\
    Forall (fun r => (0 < count (snd r))%nat /\
                     exists m, mean (snd r) = Some m /\ (0 <= m <= 5)%Q)
           s.
Proof.
  destruct (final_columns rs)
    as (df1 & ts & Hrun & Hlen & Hall & _).
  exists df1, (table Date_2025 (map category_of ts) (map score_of ts)).
  eexists. split; [exact Hrun |]. split; [reflexivity |].
  rewrite map_map. cbn [fst snd].
  assert (Hkeys : forall k, In k (group_keys (map category_of ts)) ->
                            exists x, In x ts /\ snd (fst x) = k).
  { intros k Hk. apply group_keys_In, in_map_iff in Hk.
    destruct Hk as (x & Ex & Hx). injection Ex as <-. exists x. auto. }
  split.
  - rewrite <- Hlen.
    rewrite <- (groups_partition (group_keys (map category_of ts)) ts).
    + generalize (group_keys (map category_of ts)). intros ks.
      unfold total_count. induction ks as [|k ks IH]; [reflexivity |].
      cbn [map fold_right snd]. rewrite IH, group_of_triples, describe_scores.
      reflexivity.
    + apply sorted_strings_NoDup, group_keys_sorted.
    + apply Forall_forall. intros x Hx. apply group_keys_In.
      apply in_map_iff. exists x. split; [reflexivity | exact Hx].
  - apply Forall_map, Forall_forall. intros k Hk. cbn [snd].
    rewrite group_of_triples, describe_scores. cbn [count mean].
    destruct (Hkeys k Hk) as (x & Hx & Ek).
    assert (Hin : In x (with_category k ts)).
    { unfold with_category. apply filter_In. split; [exact Hx |].
      apply String.eqb_eq. exact Ek. }
    assert (Hb : 0 <= Zsum (map snd (with_category k ts))
                 <= 5 * Z.of_nat (List.length (with_category k ts))).
    { apply Zsum_bounds. apply Forall_forall. intros y Hy.
      unfold with_category in Hy. apply filter_In in Hy. destruct Hy as [Hy _].
      rewrite Forall_forall in Hall.
      apply (final_triple_category y (Hall y Hy)). }
    destruct (List.length (with_category k ts)) as [|n] eqn:En.
    + apply length_zero_iff_nil in En. rewrite En in Hin. destruct Hin.
    + split; [lia |]. eexists. split; [reflexivity |].
      unfold Qle. cbn [Qnum Qden].
      rewrite Zpos_P_of_succ_nat. rewrite Nat2Z.inj_succ in Hb. lia.
Qed.

(** X12.  The summary of any three-column table has one row for each
    label that occurs in the [Category] column and no other: a label
    without a record gets no row, not a row with count zero. *)
Theorem summary_has_rows_for_present_labels (D C U : Series) :
  exists s,
    summary (table D C U) = Ok s /\
    NoDup (map fst s) /\
    forall k, In k (map fst s) <-> In (VStr k) C.
Proof.
  eexists. split; [reflexivity |].
  rewrite !map_map. cbn [fst]. rewrite map_id.
  split; [apply sorted_strings_NoDup, group_keys_sorted |].
  intros k. apply group_keys_In.
Qed.

Lemma summary_has_rows_for_present_labels_witness :
  exists s,
    summary (table [VTimestamp 20089; VTimestamp 20090]
                   [VStr "Peak"; VStr "Peak"] [VInt 3; VInt 5]) = Ok s /\
    In "Peak" (map fst s) /\ ~ In "Stable" (map fst s).
Proof.
  destruct (summary_has_rows_for_present_labels
              [VTimestamp 20089; VTimestamp 20090]
              [VStr "Peak"; VStr "Peak"] [VInt 3; VInt 5])
    as (s & Hs & _ & Hiff).
  exists s. split; [exact Hs |]. split.
  - apply Hiff. left. reflexivity.
  - intros H. apply Hiff in H. destruct H as [H|[H|[]]]; discriminate H.
Defined.

Lemma overwrite_all_entries_in_range evs d c u :
  Forall (fun ev => entry_in_range ev = true) evs ->
  record_in_range (record d c u) ->
  record_in_range (overwrite_all parse_iso evs (record d c u)).
Proof.
  intros Hevs H1. rewrite overwrite_all_record.
  destruct (last_addressed _ _ _) as [ev|] eqn:E; [| exact H1].
  unfold last_addressed in E. apply find_some in E. destruct E as [Hev _].
  apply in_rev in Hev. rewrite Forall_forall in Hevs.
  specialize (Hevs ev Hev). unfold entry_in_range in Hevs.
  apply andb_prop in Hevs. destruct Hevs as [Hr Hhi].
  apply andb_prop in Hr. destruct Hr as [Hcat Hlo].
  apply existsb_exists in Hcat. destruct Hcat as (label & Hl & El).
  apply String.eqb_eq in El.
  exists (event_category ev), (event_score ev).
  split; [reflexivity |]. split; [rewrite El; exact Hl |].
  split; [reflexivity | lia].
Qed.

(** X13.  The range invariant holds after every turn of the override
    loop: once any number of entries of the list have been applied, the
    table still has 365 records, each with a category among the four labels
    and a score between 0 and 5. *)
Theorem range_kept_after_every_turn (rs : RandomState) (n : nat) :
  exists df1 rs' df,
    simulate rs = (Ok df1, rs') /\
    apply_overrides parse_iso (firstn n actual_events) df1 = Ok df /\
    len df = 365%nat /\
    Forall record_in_range (records df).
Proof.
  destruct (simulate_returns rs) as (df & rs' & Hsim & C & U & -> & HC & HU & HF).
  destruct (apply_overrides_table parse_iso (firstn n actual_events)
                                  Date_2025 C U)
    as (C' & U' & Hov & HC' & HU' & R).
  exists (table Date_2025 C U), rs', (table Date_2025 C' U').
  split; [exact Hsim |]. split; [exact Hov |]. split; [reflexivity |].
  rewrite records_table by (rewrite length_Date_2025; congruence).
  rewrite R. apply Forall_map.
  assert (H1 : Forall record_in_range (rows_of Date_2025 C U)).
  { eapply Forall_impl; [exact record_simulated_in_range |].
    apply rows_of_simulated; [rewrite length_Date_2025; exact HC | exact HF]. }
  rewrite Forall_forall in H1 |- *. intros r0 Hr0. specialize (H1 r0 Hr0).
  apply rows_of_In in Hr0. destruct Hr0 as (d & c & u & -> & _).
  apply overwrite_all_entries_in_range; [| exact H1].
  apply Forall_forall. intros ev Hev.
  assert (Hr := entries_in_range). rewrite forallb_forall in Hr.
  apply Hr. rewrite <- (firstn_skipn n actual_events).
  apply in_or_app. left. exact Hev.
Qed.
